(** * Budget & Expense Tracker (main.py): a shallow embedding

    The program is a single Streamlit script.  Its logic is embedded here
    as pure functions over an explicit session state; [datetime.now()] is
    an argument of every operation that reads the clock, and exceptions
    are values of an error type.

    Layout: library models ([re.sub], [decimal.Decimal], [datetime],
    [json]) come first, then the functions of main.py under their own
    names, then the lemmas and the theorems about them. *)

From Stdlib Require Import ZArith NArith QArith Qpower List String Ascii Bool Lia.
From Stdlib Require DecimalFacts DecimalPos DecimalN.
Import ListNotations.

Set Warnings "-register-all".

Local Open Scope Z_scope.

(** ** Exceptions *)

Inductive exn : Type :=
| AttributeError
| ValueError
| OverflowError
| TypeError
| KeyError
| InvalidOperation
| DivisionByZero.

Inductive result (A : Type) : Type :=
| Ok (a : A)
| Raise (e : exn).

Arguments Ok {A} a.
Arguments Raise {A} e.

Definition bind {A B : Type} (r : result A) (k : A -> result B) : result B :=
  match r with
  | Ok a => k a
  | Raise e => Raise e
  end.

Notation "x <- r ;; k" := (bind r (fun x => k))
  (at level 61, r at next level, right associativity).

(** ** Text: [re.sub(r'[^\d.]', '', value)]

    Text is modelled as ASCII strings; [\d] is then the class 0-9. *)

Definition is_digit (c : ascii) : bool :=
  let n := N_of_ascii c in ((48 <=? n) && (n <=? 57))%N.

Definition is_digit_or_dot (c : ascii) : bool :=
  is_digit c || Ascii.eqb c "."%char.

Fixpoint re_sub_non_numeric (value : string) : string :=
  match value with
  | EmptyString => EmptyString
  | String c rest =>
      if is_digit_or_dot c
      then String c (re_sub_non_numeric rest)
      else re_sub_non_numeric rest
  end.

(** ** [decimal.Decimal] under the default context

    A finite decimal is sign, coefficient and exponent, as in the
    library ([_sign], [_int], [_exp]).  The default context has
    precision 28 and rounds half-even.  The exponent limits of that
    context (Emax = 999999) need operands about a million characters
    long and are left out, as are the special values (infinities and
    NaN), whose spellings contain letters. *)

Record Decimal : Type := mkDecimal {
  d_sign : bool;   (* true for a negative number *)
  d_int : N;       (* coefficient *)
  d_exp : Z        (* exponent *)
}.

Definition prec : Z := 28.

(** The signed coefficient, and the exact rational value. *)
Definition d_signed (d : Decimal) : Z :=
  if d_sign d then - Z.of_N (d_int d) else Z.of_N (d_int d).

Definition d_value (d : Decimal) : Q :=
  inject_Z (d_signed d) * Qpower (10 # 1) (d_exp d).

(** [len(str(n))]: the number of decimal digits of a coefficient. *)
Definition ndigits (n : N) : Z :=
  Z.of_nat (Decimal.nb_digits (N.to_uint n)).

(** Builds a decimal from a signed integer coefficient; [zsign] is the
    sign given to a zero. *)
Definition of_signed (zsign : bool) (c : Z) (e : Z) : Decimal :=
  if c =? 0 then mkDecimal zsign 0 e
  else mkDecimal (c <? 0) (Z.to_N (Z.abs c)) e.

(** [Decimal._fix]: a coefficient of more than [prec] digits is rounded
    half-even to [prec] digits; a carry out of the top digit drops one
    more digit. *)
Definition Decimal_fix (d : Decimal) : Decimal :=
  let c := Z.of_N (d_int d) in
  if c <? 10 ^ prec then d
  else
    let k := ndigits (d_int d) - prec in
    let q := c / 10 ^ k in
    let r := c mod 10 ^ k in
    let half := 5 * 10 ^ (k - 1) in
    let q' := if (half <? r) || ((r =? half) && Z.odd q) then q + 1 else q in
    if q' =? 10 ^ prec
    then mkDecimal (d_sign d) (Z.to_N (10 ^ (prec - 1))) (d_exp d + k + 1)
    else mkDecimal (d_sign d) (Z.to_N q') (d_exp d + k).

(** [Decimal(n)] for an [int]. *)
Definition Decimal_of_int (n : Z) : Decimal :=
  mkDecimal (n <? 0) (Z.to_N (Z.abs n)) 0.

(** [a + b]: the exact sum at the smaller exponent, then [_fix].  A zero
    result is negative only when both operands are. *)
Definition Decimal_add (a b : Decimal) : Decimal :=
  let e := Z.min (d_exp a) (d_exp b) in
  let s := d_signed a * 10 ^ (d_exp a - e) + d_signed b * 10 ^ (d_exp b - e) in
  Decimal_fix (of_signed (d_sign a && d_sign b) s e).

Definition Decimal_neg (a : Decimal) : Decimal :=
  mkDecimal (negb (d_sign a)) (d_int a) (d_exp a).

(** [a - b] is [a + b.copy_negate()]. *)
Definition Decimal_sub (a b : Decimal) : Decimal :=
  Decimal_add a (Decimal_neg b).

(** [a * b]. *)
Definition Decimal_mul (a b : Decimal) : Decimal :=
  Decimal_fix (mkDecimal (xorb (d_sign a) (d_sign b))
                         (d_int a * d_int b)%N
                         (d_exp a + d_exp b)).

(** The loop of [__truediv__] that brings an exact quotient towards its
    ideal exponent. *)
Fixpoint strip_zeros (fuel : nat) (coeff exp ideal_exp : Z) : Z * Z :=
  match fuel with
  | O => (coeff, exp)
  | S fuel' =>
      if (exp <? ideal_exp) && (coeff mod 10 =? 0)
      then strip_zeros fuel' (coeff / 10) (exp + 1) ideal_exp
      else (coeff, exp)
  end.

(** [a / b]. *)
Definition Decimal_truediv (a b : Decimal) : result Decimal :=
  let sign := xorb (d_sign a) (d_sign b) in
  if (d_int b =? 0)%N then
    if (d_int a =? 0)%N then Raise InvalidOperation else Raise DivisionByZero
  else if (d_int a =? 0)%N then
    Ok (Decimal_fix (mkDecimal sign 0 (d_exp a - d_exp b)))
  else
    let shift := ndigits (d_int b) - ndigits (d_int a) + prec + 1 in
    let exp := d_exp a - d_exp b - shift in
    let n := Z.of_N (d_int a) in
    let m := Z.of_N (d_int b) in
    let '(coeff, remainder) :=
      if 0 <=? shift
      then ((n * 10 ^ shift) / m, (n * 10 ^ shift) mod m)
      else (n / (m * 10 ^ (- shift)), n mod (m * 10 ^ (- shift))) in
    let '(coeff, exp) :=
      if negb (remainder =? 0)
      then ((if coeff mod 5 =? 0 then coeff + 1 else coeff), exp)
      else strip_zeros (Z.to_nat shift) coeff exp (d_exp a - d_exp b) in
    Ok (Decimal_fix (mkDecimal sign (Z.to_N coeff) exp)).

(** Comparison of values, and the comparisons with an [int] that the
    program makes. *)
Definition Decimal_compare (a b : Decimal) : comparison :=
  let e := Z.min (d_exp a) (d_exp b) in
  (d_signed a * 10 ^ (d_exp a - e) ?= d_signed b * 10 ^ (d_exp b - e)).

Definition Decimal_le_int (a : Decimal) (n : Z) : bool :=
  match Decimal_compare a (Decimal_of_int n) with
  | Gt => false
  | _ => true
  end.

Definition Decimal_lt_int (a : Decimal) (n : Z) : bool :=
  match Decimal_compare a (Decimal_of_int n) with
  | Lt => true
  | _ => false
  end.

(** [sum(...)] over decimals: it starts from the integer 0, to which
    the first item is added from the right (the addition is
    commutative). *)
Definition py_sum (l : list Decimal) : Decimal :=
  fold_left Decimal_add l (Decimal_of_int 0).

(** *** [Decimal(text)]

    The numeric strings of the constructor:
    [[-+]? (digits [. digits*] | . digits) (E [-+]? digits)?].
    Anything else raises [InvalidOperation].  (The constructor also
    drops surrounding blanks and underscores and reads the names of the
    special values; none of these characters is a digit or a dot.) *)

Definition digit_val (c : ascii) : N := (N_of_ascii c - 48)%N.

Fixpoint int_of_digits (acc : N) (s : string) : N :=
  match s with
  | EmptyString => acc
  | String c rest => int_of_digits (10 * acc + digit_val c)%N rest
  end.

(** The longest prefix of digits, and what follows it. *)
Fixpoint span_digits (s : string) : string * string :=
  match s with
  | EmptyString => (EmptyString, EmptyString)
  | String c rest =>
      if is_digit c
      then let (ds, tl) := span_digits rest in (String c ds, tl)
      else (EmptyString, s)
  end.

Definition take_sign (s : string) : bool * string :=
  match s with
  | String "-"%char rest => (true, rest)
  | String "+"%char rest => (false, rest)
  | _ => (false, s)
  end.

Definition parse_exponent (s : string) : option Z :=
  match s with
  | EmptyString => Some 0
  | String c rest =>
      if Ascii.eqb c "E"%char || Ascii.eqb c "e"%char then
        let (neg, rest1) := take_sign rest in
        let (ds, tl) := span_digits rest1 in
        match ds, tl with
        | String _ _, EmptyString =>
            let v := Z.of_N (int_of_digits 0 ds) in
            Some (if neg then - v else v)
        | _, _ => None
        end
      else None
  end.

Definition Decimal_of_str (s : string) : result Decimal :=
  let (sign, s1) := take_sign s in
  let (intpart, s2) := span_digits s1 in
  let (fracpart, s3) :=
    match s2 with
    | String "."%char rest => span_digits rest
    | _ => (EmptyString, s2)
    end in
  match (intpart ++ fracpart)%string with
  | EmptyString => Raise InvalidOperation
  | String _ _ =>
      match parse_exponent s3 with
      | Some e =>
          Ok (mkDecimal sign (int_of_digits 0 (intpart ++ fracpart))
                        (e - Z.of_nat (String.length fracpart)))
      | None => Raise InvalidOperation
      end
  end.

(** ** [datetime] (naive date-times of the proleptic Gregorian calendar) *)

Record datetime : Type := mkDatetime {
  year : Z;
  month : Z;
  day : Z;
  hour : Z;
  minute : Z;
  second : Z;
  microsecond : Z
}.

Definition MINYEAR : Z := 1.
Definition MAXYEAR : Z := 9999.
Definition MAXORDINAL : Z := 3652059.

Definition is_leap (y : Z) : bool :=
  (y mod 4 =? 0) && (negb (y mod 100 =? 0) || (y mod 400 =? 0)).

Definition b2z (b : bool) : Z := if b then 1 else 0.

Definition DAYS_IN_MONTH (m : Z) : Z :=
  match m with
  | 1 => 31 | 2 => 28 | 3 => 31 | 4 => 30 | 5 => 31 | 6 => 30
  | 7 => 31 | 8 => 31 | 9 => 30 | 10 => 31 | 11 => 30 | 12 => 31
  | _ => -1
  end.

Definition DAYS_BEFORE_MONTH (m : Z) : Z :=
  match m with
  | 1 => 0 | 2 => 31 | 3 => 59 | 4 => 90 | 5 => 120 | 6 => 151
  | 7 => 181 | 8 => 212 | 9 => 243 | 10 => 273 | 11 => 304 | 12 => 334
  | _ => -1
  end.

Definition days_before_year (y : Z) : Z :=
  let y := y - 1 in y * 365 + y / 4 - y / 100 + y / 400.

Definition days_in_month (y m : Z) : Z :=
  if (m =? 2) && is_leap y then 29 else DAYS_IN_MONTH m.

Definition days_before_month (y m : Z) : Z :=
  DAYS_BEFORE_MONTH m + b2z ((2 <? m) && is_leap y).

Definition ymd2ord (y m d : Z) : Z :=
  days_before_year y + days_before_month y m + d.

Definition toordinal (t : datetime) : Z :=
  ymd2ord (year t) (month t) (day t).

Definition DI400Y : Z := 146097.
Definition DI100Y : Z := 36524.
Definition DI4Y : Z := 1461.

(** [_ord2ymd]: the date of an ordinal. *)
Definition ord2ymd (n : Z) : Z * Z * Z :=
  let n := n - 1 in
  let n400 := n / DI400Y in
  let n := n mod DI400Y in
  let y := n400 * 400 + 1 in
  let n100 := n / DI100Y in
  let n := n mod DI100Y in
  let n4 := n / DI4Y in
  let n := n mod DI4Y in
  let n1 := n / 365 in
  let n := n mod 365 in
  let y := y + n100 * 100 + n4 * 4 + n1 in
  if (n1 =? 4) || (n100 =? 4) then (y - 1, 12, 31)
  else
    let leapyear := (n1 =? 3) && (negb (n4 =? 24) || (n100 =? 3)) in
    let m := Z.shiftr (n + 50) 5 in
    let preceding := DAYS_BEFORE_MONTH m + b2z ((2 <? m) && leapyear) in
    let '(m, preceding) :=
      if n <? preceding
      then (m - 1,
            preceding - (DAYS_IN_MONTH (m - 1) + b2z ((m - 1 =? 2) && leapyear)))
      else (m, preceding) in
    (y, m, n - preceding + 1).

Definition valid_date (y m d : Z) : bool :=
  (MINYEAR <=? y) && (y <=? MAXYEAR) &&
  (1 <=? m) && (m <=? 12) &&
  (1 <=? d) && (d <=? days_in_month y m).

Definition valid_time (h mi s us : Z) : bool :=
  (0 <=? h) && (h <=? 23) && (0 <=? mi) && (mi <=? 59) &&
  (0 <=? s) && (s <=? 59) && (0 <=? us) && (us <=? 999999).

Definition valid_datetime (t : datetime) : bool :=
  valid_date (year t) (month t) (day t) &&
  valid_time (hour t) (minute t) (second t) (microsecond t).

(** The constructor checks every field and raises [ValueError]. *)
Definition datetime_new (y m d h mi s us : Z) : result datetime :=
  if valid_date y m d && valid_time h mi s us
  then Ok (mkDatetime y m d h mi s us)
  else Raise ValueError.

(** [t.replace(year=y, month=m)] and [t.replace(year=y)] build a new
    object through the constructor. *)
Definition replace_year_month (t : datetime) (y m : Z) : result datetime :=
  datetime_new y m (day t) (hour t) (minute t) (second t) (microsecond t).

Definition replace_year (t : datetime) (y : Z) : result datetime :=
  datetime_new y (month t) (day t) (hour t) (minute t) (second t)
               (microsecond t).

(** [timedelta], kept normalised: 0 <= seconds < 86400 and
    0 <= microseconds < 10^6. *)
Record timedelta : Type := mkTimedelta {
  days : Z;
  seconds : Z;
  microseconds : Z
}.

Definition timedelta_new (d s us : Z) : timedelta :=
  let s1 := s + us / 1000000 in
  mkTimedelta (d + s1 / 86400) (s1 mod 86400) (us mod 1000000).

Definition seconds_of_day (t : datetime) : Z :=
  second t + minute t * 60 + hour t * 3600.

(** [a - b] on date-times. *)
Definition datetime_sub (a b : datetime) : timedelta :=
  timedelta_new (toordinal a - toordinal b)
                (seconds_of_day a - seconds_of_day b)
                (microsecond a - microsecond b).

(** [t + timedelta(days=n)]. *)
Definition datetime_add_days (t : datetime) (n : Z) : result datetime :=
  let delta := timedelta_new (toordinal t + n) (seconds_of_day t)
                             (microsecond t) in
  if (0 <? days delta) && (days delta <=? MAXORDINAL) then
    let '(y, m, d) := ord2ymd (days delta) in
    let h := seconds delta / 3600 in
    let rem := seconds delta mod 3600 in
    Ok (mkDatetime y m d h (rem / 60) (rem mod 60) (microseconds delta))
  else Raise OverflowError.

(** Tuple comparison, as [date] and [datetime] compare. *)
Fixpoint lex_compare (a b : list Z) : comparison :=
  match a, b with
  | x :: a', y :: b' =>
      match x ?= y with
      | Eq => lex_compare a' b'
      | c => c
      end
  | [], [] => Eq
  | [], _ :: _ => Lt
  | _ :: _, [] => Gt
  end.

Definition date_fields (t : datetime) : list Z :=
  [year t; month t; day t].

Definition datetime_fields (t : datetime) : list Z :=
  [year t; month t; day t; hour t; minute t; second t; microsecond t].

(** [a.date() > b.date()] *)
Definition date_gt (a b : datetime) : bool :=
  match lex_compare (date_fields a) (date_fields b) with
  | Gt => true
  | _ => false
  end.

(** [a < b] on date-times. *)
Definition datetime_lt (a b : datetime) : bool :=
  match lex_compare (datetime_fields a) (datetime_fields b) with
  | Lt => true
  | _ => false
  end.

(** [min(...)] over a non-empty sequence: the first smallest item. *)
Definition py_min (first : datetime) (others : list datetime) : datetime :=
  fold_left (fun m t => if datetime_lt t m then t else m) others first.

(** Zero-padded decimal fields. *)
Definition digit_char (n : Z) : ascii := ascii_of_N (Z.to_N (48 + n mod 10)).

Fixpoint zero_padded (width : nat) (n : Z) (suffix : string) : string :=
  match width with
  | O => suffix
  | S w => zero_padded w (n / 10) (String (digit_char n) suffix)
  end.

(** [t.strftime('%Y-%m-%d')], for years of four digits. *)
Definition strftime_Ymd (t : datetime) : string :=
  zero_padded 4 (year t)
    (String "-" (zero_padded 2 (month t)
       (String "-" (zero_padded 2 (day t) EmptyString)))).

(** [t.isoformat()] *)
Definition isoformat (t : datetime) : string :=
  zero_padded 4 (year t)
    (String "-" (zero_padded 2 (month t)
       (String "-" (zero_padded 2 (day t)
          (String "T" (zero_padded 2 (hour t)
             (String ":" (zero_padded 2 (minute t)
                (String ":" (zero_padded 2 (second t)
                   (if microsecond t =? 0 then EmptyString
                    else String "." (zero_padded 6 (microsecond t)
                                       EmptyString)))))))))))).

(** Reads exactly [width] digits. *)
Fixpoint read_digits (width : nat) (acc : Z) (s : string)
  : option (Z * string) :=
  match width with
  | O => Some (acc, s)
  | S w =>
      match s with
      | String c rest =>
          if is_digit c
          then read_digits w (10 * acc + Z.of_N (digit_val c)) rest
          else None
      | EmptyString => None
      end
  end.

Definition expect (c : ascii) (s : string) : option string :=
  match s with
  | String c' rest => if Ascii.eqb c c' then Some rest else None
  | EmptyString => None
  end.

Definition obind {A B : Type} (o : option A) (k : A -> option B) : option B :=
  match o with
  | Some a => k a
  | None => None
  end.

(** [datetime.fromisoformat(s)], on the strings that [isoformat]
    writes: [YYYY-MM-DDTHH:MM:SS] with an optional [.ffffff].  Any other
    text, and any field out of range, raises [ValueError]. *)
Definition parse_iso_fields (s : string) : option (list Z) :=
  obind (read_digits 4 0 s) (fun '(y, s) =>
  obind (expect "-" s) (fun s =>
  obind (read_digits 2 0 s) (fun '(m, s) =>
  obind (expect "-" s) (fun s =>
  obind (read_digits 2 0 s) (fun '(d, s) =>
  obind (expect "T" s) (fun s =>
  obind (read_digits 2 0 s) (fun '(h, s) =>
  obind (expect ":" s) (fun s =>
  obind (read_digits 2 0 s) (fun '(mi, s) =>
  obind (expect ":" s) (fun s =>
  obind (read_digits 2 0 s) (fun '(sec, s) =>
  match s with
  | EmptyString => Some [y; m; d; h; mi; sec; 0]
  | _ =>
      obind (expect "." s) (fun s =>
      obind (read_digits 6 0 s) (fun '(us, s) =>
      match s with
      | EmptyString => Some [y; m; d; h; mi; sec; us]
      | _ => None
      end))
  end))))))))))).

Definition fromisoformat (s : string) : result datetime :=
  match parse_iso_fields s with
  | Some [y; m; d; h; mi; sec; us] => datetime_new y m d h mi sec us
  | _ => Raise ValueError
  end.

(** ** Python objects and [json]

    [json.dump] writes [None], booleans, integers, strings, lists and
    dictionaries with string keys; for any other object the encoder's
    [default] raises [TypeError].  A JSON document is kept as a tree. *)

Inductive pyobj : Type :=
| PyNone
| PyBool (b : bool)
| PyInt (n : Z)
| PyStr (s : string)
| PyDecimal (d : Decimal)
| PyDatetime (t : datetime)
| PyList (items : list pyobj)
| PyDict (items : list (string * pyobj)).

Inductive json : Type :=
| JNull
| JBool (b : bool)
| JNumber (n : Z)
| JString (s : string)
| JArray (items : list json)
| JObject (items : list (string * json)).

Fixpoint json_encode (o : pyobj) : result json :=
  match o with
  | PyNone => Ok JNull
  | PyBool b => Ok (JBool b)
  | PyInt n => Ok (JNumber n)
  | PyStr s => Ok (JString s)
  | PyDecimal _ => Raise TypeError
  | PyDatetime _ => Raise TypeError
  | PyList items =>
      let fix encode_items (l : list pyobj) : result (list json) :=
        match l with
        | [] => Ok []
        | x :: l' =>
            match json_encode x with
            | Raise e => Raise e
            | Ok j =>
                match encode_items l' with
                | Raise e => Raise e
                | Ok js => Ok (j :: js)
                end
            end
        end in
      match encode_items items with
      | Raise e => Raise e
      | Ok js => Ok (JArray js)
      end
  | PyDict items =>
      let fix encode_pairs (l : list (string * pyobj))
        : result (list (string * json)) :=
        match l with
        | [] => Ok []
        | (k, x) :: l' =>
            match json_encode x with
            | Raise e => Raise e
            | Ok j =>
                match encode_pairs l' with
                | Raise e => Raise e
                | Ok js => Ok ((k, j) :: js)
                end
            end
        end in
      match encode_pairs items with
      | Raise e => Raise e
      | Ok js => Ok (JObject js)
      end
  end.

Fixpoint json_decode (j : json) : pyobj :=
  match j with
  | JNull => PyNone
  | JBool b => PyBool b
  | JNumber n => PyInt n
  | JString s => PyStr s
  | JArray items => PyList (map json_decode items)
  | JObject items =>
      PyDict (map (fun kv => (fst kv, json_decode (snd kv))) items)
  end.

(** [d[key]] *)
Fixpoint dict_get (key : string) (items : list (string * pyobj))
  : result pyobj :=
  match items with
  | [] => Raise KeyError
  | (k, v) :: rest => if String.eqb k key then Ok v else dict_get key rest
  end.

(** [{**d, key: v}]: the key keeps its place, a new key goes last. *)
Fixpoint dict_set (key : string) (v : pyobj) (items : list (string * pyobj))
  : list (string * pyobj) :=
  match items with
  | [] => [(key, v)]
  | (k, x) :: rest =>
      if String.eqb k key then (k, v) :: rest
      else (k, x) :: dict_set key v rest
  end.

Fixpoint map_result {A B : Type} (f : A -> result B) (l : list A)
  : result (list B) :=
  match l with
  | [] => Ok []
  | x :: l' =>
      y <- f x ;;
      ys <- map_result f l' ;;
      Ok (y :: ys)
  end.

(** * main.py *)

Local Open Scope string_scope.
Local Open Scope Z_scope.

(** The settings file: absent, a JSON document, or text that is not
    JSON (what an interrupted [json.dump] leaves behind, the file having
    been truncated when it was opened for writing). *)
Inductive file_content : Type :=
| NoFile
| JsonText (j : json)
| Garbled.

Inductive BudgetType : Type := Daily | Weekly | Monthly | Yearly.

Definition budget_type_name (t : BudgetType) : string :=
  match t with
  | Daily => "Daily"
  | Weekly => "Weekly"
  | Monthly => "Monthly"
  | Yearly => "Yearly"
  end.

Definition EXPENSE_CATEGORIES : list string :=
  ["Food"; "Gas"; "Utilities"; "Rent/Mortgage"; "Transportation";
   "Entertainment"; "Healthcare"; "Shopping"; "Other"].

(** The dictionary that [add_expense] builds. *)
Record Expense : Type := mkExpense {
  e_date : datetime;
  e_amount : Decimal;
  e_description : string;
  e_category : string;
  e_currency : string;
  e_budget_type : option BudgetType;
  e_budget_period : string
}.

Definition expense_dict (e : Expense) : pyobj :=
  PyDict [("date", PyDatetime (e_date e));
          ("amount", PyDecimal (e_amount e));
          ("description", PyStr (e_description e));
          ("category", PyStr (e_category e));
          ("currency", PyStr (e_currency e));
          ("budget_type",
           match e_budget_type e with
           | Some t => PyStr (budget_type_name t)
           | None => PyNone
           end);
          ("budget_period", PyStr (e_budget_period e))].

Inductive Page : Type :=
| main_menu_page | budget_page | settings_page | history_page
| calculator_page.

(** [st.session_state] *)
Record SessionState : Type := mkSession {
  page : Page;
  currency : string;
  theme : string;
  notifications_enabled : bool;
  critical_warning_enabled : bool;
  budget_type : option BudgetType;
  budget_amount : option Decimal;
  budget_start_date : option datetime;
  expenses : list Expense;
  expense_history : list Expense
}.

(** The session together with the settings file. *)
Record World : Type := mkWorld {
  session : SessionState;
  settings_file : file_content
}.

(** What a run puts on the page, as far as the statements below need
    it: error, success and information boxes, and the summary block of
    the history page. *)
Inductive Notice : Type :=
| st_error (text : string)
| st_success (text : string) (shown : Decimal)
| st_info (text : string)
| st_markdown_summary (total_spent : Decimal) (count : nat)
                      (avg_per_day : Decimal).

(** How a piece of the script ends: normally, with what it displayed,
    or by an exception that nothing caught.  Either way the world is the
    one reached at that point. *)
Inductive outcome : Type :=
| Done (w : World) (out : list Notice)
| Uncaught (w : World) (e : exn).

Definition world_of (o : outcome) : World :=
  match o with
  | Done w _ => w
  | Uncaught w _ => w
  end.

Definition with_page (s : SessionState) (p : Page) : SessionState :=
  mkSession p (currency s) (theme s) (notifications_enabled s)
            (critical_warning_enabled s) (budget_type s) (budget_amount s)
            (budget_start_date s) (expenses s) (expense_history s).

Definition with_currency (s : SessionState) (c : string) : SessionState :=
  mkSession (page s) c (theme s) (notifications_enabled s)
            (critical_warning_enabled s) (budget_type s) (budget_amount s)
            (budget_start_date s) (expenses s) (expense_history s).

Definition with_theme (s : SessionState) (t : string) : SessionState :=
  mkSession (page s) (currency s) t (notifications_enabled s)
            (critical_warning_enabled s) (budget_type s) (budget_amount s)
            (budget_start_date s) (expenses s) (expense_history s).

Definition with_notifications (s : SessionState) (b : bool) : SessionState :=
  mkSession (page s) (currency s) (theme s) b
            (critical_warning_enabled s) (budget_type s) (budget_amount s)
            (budget_start_date s) (expenses s) (expense_history s).

Definition with_critical_warning (s : SessionState) (b : bool)
  : SessionState :=
  mkSession (page s) (currency s) (theme s) (notifications_enabled s)
            b (budget_type s) (budget_amount s)
            (budget_start_date s) (expenses s) (expense_history s).

Definition with_budget (s : SessionState) (t : option BudgetType)
    (a : option Decimal) (d : option datetime) (current : list Expense)
  : SessionState :=
  mkSession (page s) (currency s) (theme s) (notifications_enabled s)
            (critical_warning_enabled s) t a d current (expense_history s).

Definition with_ledger (s : SessionState) (current history : list Expense)
  : SessionState :=
  mkSession (page s) (currency s) (theme s) (notifications_enabled s)
            (critical_warning_enabled s) (budget_type s) (budget_amount s)
            (budget_start_date s) current history.

(** [get_default_settings] *)
Definition get_default_settings : pyobj :=
  PyDict [("currency", PyStr "USD");
          ("theme", PyStr "light");
          ("notifications_enabled", PyBool true);
          ("critical_warning_enabled", PyBool true);
          ("expense_history", PyList [])].

(** [load_settings] *)
Definition load_settings (f : file_content) : pyobj :=
  match f with
  | NoFile => get_default_settings
  | JsonText j => json_decode j
  | Garbled => get_default_settings
  end.

(** [{**expense, 'date': expense['date'].isoformat()}] *)
Definition serialize_expense (expense : pyobj) : result pyobj :=
  match expense with
  | PyDict items =>
      d <- dict_get "date" items ;;
      match d with
      | PyDatetime t => Ok (PyDict (dict_set "date" (PyStr (isoformat t)) items))
      | _ => Raise AttributeError
      end
  | _ => Raise TypeError
  end.

(** [{**expense, 'date': datetime.fromisoformat(expense['date'])}] *)
Definition deserialize_expense (expense : pyobj) : result pyobj :=
  match expense with
  | PyDict items =>
      d <- dict_get "date" items ;;
      match d with
      | PyStr text =>
          t <- fromisoformat text ;;
          Ok (PyDict (dict_set "date" (PyDatetime t) items))
      | _ => Raise TypeError
      end
  | _ => Raise TypeError
  end.

(** The dictionary that [save_settings] hands to [json.dump]. *)
Definition settings_dict (s : SessionState) : result pyobj :=
  history <- map_result serialize_expense
               (map expense_dict (expense_history s)) ;;
  Ok (PyDict [("currency", PyStr (currency s));
              ("theme", PyStr (theme s));
              ("notifications_enabled", PyBool (notifications_enabled s));
              ("critical_warning_enabled",
               PyBool (critical_warning_enabled s));
              ("expense_history", PyList history)]).

(** [save_settings]: any exception of [json.dump] is caught and shown
    (the program appends the exception's own text to the message). *)
Definition save_settings (w : World) : outcome :=
  match settings_dict (session w) with
  | Raise e => Uncaught w e
  | Ok settings =>
      match json_encode settings with
      | Ok j => Done (mkWorld (session w) (JsonText j)) []
      | Raise _ =>
          Done (mkWorld (session w) Garbled)
               [st_error "Failed to save settings"]
      end
  end.

(** The expense history that start-up puts in the session state:
    [settings['expense_history']] with every date parsed back. *)
Definition restored_history (settings : pyobj) : result (list pyobj) :=
  match settings with
  | PyDict items =>
      h <- dict_get "expense_history" items ;;
      match h with
      | PyList l => map_result deserialize_expense l
      | _ => Raise TypeError
      end
  | _ => Raise TypeError
  end.

(** The test of [check_budget_reset]. *)
Definition reset_needed (t : option BudgetType) (start_date now : datetime)
  : bool :=
  match t with
  | Some Daily => date_gt now start_date
  | Some Weekly => 7 <=? days (datetime_sub now start_date)
  | Some Monthly =>
      (year start_date <? year now) ||
      ((year now =? year start_date) && (month start_date <? month now))
  | Some Yearly => year start_date <? year now
  | None => false
  end.

(** [check_budget_reset] *)
Definition check_budget_reset (now : datetime) (s : SessionState)
  : SessionState :=
  match budget_start_date s with
  | None => s
  | Some start_date =>
      if reset_needed (budget_type s) start_date now
      then with_budget s (budget_type s) (budget_amount s) (Some now) []
      else s
  end.

(** [get_next_reset_date] *)
Definition get_next_reset_date (s : SessionState) : result string :=
  match budget_start_date s with
  | None => Ok "N/A"
  | Some start_date =>
      next_reset <-
        match budget_type s with
        | Some Daily => datetime_add_days start_date 1
        | Some Weekly => datetime_add_days start_date 7
        | Some Monthly =>
            let next_month := month start_date + 1 in
            let next_year := year start_date + b2z (12 <? next_month) in
            let next_month := (next_month - 1) mod 12 + 1 in
            replace_year_month start_date next_year next_month
        | _ => replace_year start_date (year start_date + 1)
        end ;;
      Ok (strftime_Ymd next_reset)
  end.

(** [validate_decimal_input] *)
Definition validate_decimal_input (value : string) : option Decimal :=
  match value with
  | EmptyString => None
  | _ =>
      match Decimal_of_str (re_sub_non_numeric value) with
      | Ok d => Some d
      | Raise _ => None
      end
  end.

(** [add_expense] *)
Definition add_expense (now : datetime) (amount : Decimal)
    (description category : string) (w : World) : outcome :=
  let s := session w in
  match budget_start_date s with
  | None => Uncaught w AttributeError
  | Some start_date =>
      match get_next_reset_date s with
      | Raise e => Uncaught w e
      | Ok next =>
          let expense :=
            mkExpense now amount description category (currency s)
                      (budget_type s)
                      (strftime_Ymd start_date ++ " to " ++ next) in
          match budget_type s with
          | Some _ =>
              save_settings
                (mkWorld (with_ledger s (expenses s ++ [expense])%list
                                        (expense_history s ++ [expense])%list)
                         (settings_file w))
          | None => Done w []
          end
      end
  end.

(** Runs [k] after [o] when [o] ended normally. *)
Definition and_then (o : outcome) (k : World -> outcome) : outcome :=
  match o with
  | Done w out =>
      match k w with
      | Done w' out' => Done w' (out ++ out')%list
      | Uncaught w' e => Uncaught w' e
      end
  | Uncaught w e => Uncaught w e
  end.

Definition set_session (w : World) (s : SessionState) : World :=
  mkWorld s (settings_file w).

(** [sum(expense['amount'] for expense in st.session_state.expenses)] *)
Definition total_expenses (s : SessionState) : Decimal :=
  py_sum (map e_amount (expenses s)).

(** [st.session_state.budget_amount - total_expenses] *)
Definition remaining_budget (s : SessionState) : result Decimal :=
  match budget_amount s with
  | Some amount => Ok (Decimal_sub amount (total_expenses s))
  | None => Raise TypeError
  end.

(** [except (InvalidOperation, ValueError)] *)
Definition is_invalid_amount_error (e : exn) : bool :=
  match e with
  | InvalidOperation | ValueError => true
  | _ => false
  end.

(** What the user did on the budget page. *)
Inductive BudgetClick : Type :=
| NoClick
| ClickNotifications
| ClickSetBudget (budget_type_select : BudgetType) (budget_amount_text : string)
| ClickAddExpense (category amount_text description : string)
| ClickResetBudget.

(** The "Set Budget" button. *)
Definition set_budget (click_time : datetime) (t : BudgetType)
    (budget_amount_text : string) (w : World) : outcome :=
  match Decimal_of_str (re_sub_non_numeric budget_amount_text) with
  | Ok amount =>
      if Decimal_le_int amount 0
      then Done w [st_error "Please enter a positive budget amount."]
      else Done (set_session w
                   (with_budget (session w) (Some t) (Some amount)
                                (Some click_time) (expenses (session w))))
                []
  | Raise e =>
      if is_invalid_amount_error e
      then Done w [st_error "Please enter a valid budget amount."]
      else Uncaught w e
  end.

(** The "Add Expense" button. *)
Definition add_expense_clicked (click_time : datetime)
    (category amount_text description : string) (w : World) : outcome :=
  match Decimal_of_str (re_sub_non_numeric amount_text) with
  | Ok expense_amount =>
      if Decimal_le_int expense_amount 0
      then Done w [st_error "Please enter a positive amount."]
      else
        match add_expense click_time expense_amount description category w with
        | Uncaught w' e =>
            if is_invalid_amount_error e
            then Done w' [st_error "Please enter a valid amount."]
            else Uncaught w' e
        | o => o
        end
  | Raise e =>
      if is_invalid_amount_error e
      then Done w [st_error "Please enter a valid amount."]
      else Uncaught w e
  end.

(** The "Reset Budget" button. *)
Definition reset_budget (w : World) : outcome :=
  Done (set_session w (with_budget (session w) None None None [])) [].

(** [budget_tracker].  [now] is the clock read by the rollover check,
    [click_time] the one read by the button that was pressed.  Of the
    status display only what can raise is kept. *)
Definition budget_tracker (now click_time : datetime) (click : BudgetClick)
    (w : World) : outcome :=
  match click with
  | ClickNotifications =>
      Done (set_session w (with_page (session w) settings_page)) []
  | _ =>
      let s :=
        match budget_type (session w) with
        | Some _ => check_budget_reset now (session w)
        | None => session w
        end in
      let w := set_session w s in
      match budget_type s with
      | None =>
          match click with
          | ClickSetBudget t text => set_budget click_time t text w
          | _ => Done w []
          end
      | Some _ =>
          match remaining_budget s with
          | Raise e => Uncaught w e
          | Ok _ =>
              match get_next_reset_date s with
              | Raise e => Uncaught w e
              | Ok _ =>
                  match click with
                  | ClickAddExpense category text description =>
                      add_expense_clicked click_time category text
                                          description w
                  | ClickResetBudget => reset_budget w
                  | _ => Done w []
                  end
              end
          end
      end
  end.

(** [expense_calculator].  Both branches of the page (food, and every
    other category) do the same with other labels; [describe] stands
    for the description text they format from quantity and price. *)
Definition expense_calculator (click_time : datetime)
    (expense_type item_price quantity : string)
    (describe : Decimal -> Decimal -> string)
    (add_to_budget : bool) (w : World) : outcome :=
  match validate_decimal_input item_price,
        validate_decimal_input quantity with
  | Some price, Some qty =>
      if Decimal_lt_int price 0 || Decimal_lt_int qty 0
      then Done w [st_error "Please enter positive values only."]
      else
        let total := Decimal_mul price qty in
        let shown :=
          st_success (if String.eqb expense_type "Food"
                      then "Total food expense"
                      else "Total gas expense") total in
        if add_to_budget
        then and_then (Done w [shown])
               (add_expense click_time total (describe qty price)
                            expense_type)
        else Done w [shown]
  | _, _ => Done w []
  end.

(** The two filters of [expense_history]. *)
Definition window_days (date_range : string) : option Z :=
  if String.eqb date_range "Last 7 days" then Some 7
  else if String.eqb date_range "Last 30 days" then Some 30
  else if String.eqb date_range "Last 3 months" then Some 90
  else None.

Definition filtered_expenses (now : datetime)
    (selected_category date_range : string) (history : list Expense)
  : list Expense :=
  let by_category :=
    if String.eqb selected_category "All" then history
    else filter (fun e => String.eqb (e_category e) selected_category)
                history in
  match window_days date_range with
  | Some n =>
      filter (fun e => days (datetime_sub now (e_date e)) <=? n) by_category
  | None => by_category
  end.

(** What the history page reports. *)
Inductive HistoryReport : Type :=
| NoExpensesFound
| SpendingSummary (total_spent : Decimal) (count : nat)
                  (avg_per_day : Decimal).

(** The summary statistics of [expense_history]. *)
Definition summary_statistics (now : datetime) (filtered : list Expense)
  : result HistoryReport :=
  match filtered with
  | [] => Ok NoExpensesFound
  | first :: others =>
      let total_spent := py_sum (map e_amount filtered) in
      let earliest := py_min (e_date first) (map e_date others) in
      avg_per_day <-
        Decimal_truediv total_spent
          (Decimal_of_int (Z.max 1 (days (datetime_sub now earliest)))) ;;
      Ok (SpendingSummary total_spent (List.length filtered) avg_per_day)
  end.

(** [expense_history] *)
Definition expense_history_page (now : datetime)
    (selected_category date_range : string) (s : SessionState)
  : result HistoryReport :=
  summary_statistics now
    (filtered_expenses now selected_category date_range (expense_history s)).

(** [main_menu] *)
Definition main_menu (settings_clicked : bool) (selected_currency : string)
    (goto : option Page) (w : World) : outcome :=
  let w :=
    if settings_clicked
    then set_session w (with_page (session w) settings_page)
    else w in
  and_then
    (if String.eqb selected_currency (currency (session w))
     then Done w []
     else save_settings
            (set_session w (with_currency (session w) selected_currency)))
    (fun w =>
       match goto with
       | Some p => Done (set_session w (with_page (session w) p)) []
       | None => Done w []
       end).

(** [settings] *)
Definition settings (selected_theme : string)
    (notifications critical_warning : bool) (w : World) : outcome :=
  if negb (String.eqb selected_theme (theme (session w)))
  then save_settings (set_session w (with_theme (session w) selected_theme))
  else
    and_then
      (if Bool.eqb notifications (notifications_enabled (session w))
       then Done w []
       else save_settings
              (set_session w (with_notifications (session w) notifications)))
      (fun w =>
         if notifications_enabled (session w)
         then
           if Bool.eqb critical_warning
                       (critical_warning_enabled (session w))
           then Done w []
           else save_settings
                  (set_session w
                     (with_critical_warning (session w) critical_warning))
         else Done w []).

(** One run of the script: what the user did on the page shown. *)
Inductive Interaction : Type :=
| ClickBack
| OnMainMenu (settings_clicked : bool) (selected_currency : string)
             (goto : option Page)
| OnBudget (click : BudgetClick)
| OnSettings (selected_theme : string) (notifications critical_warning : bool)
| OnHistory (selected_category date_range : string)
| OnCalculator (expense_type item_price quantity : string)
               (describe : Decimal -> Decimal -> string)
               (add_to_budget : bool).

(** The navigation bar and the page dispatch at the end of the script.
    An interaction that the current page does not offer does nothing. *)
Definition run_script (now click_time : datetime) (i : Interaction)
    (w : World) : outcome :=
  match i, page (session w) with
  | ClickBack, main_menu_page => Done w []
  | ClickBack, _ =>
      Done (set_session w (with_page (session w) main_menu_page)) []
  | OnMainMenu sc cur goto, main_menu_page => main_menu sc cur goto w
  | OnBudget click, budget_page => budget_tracker now click_time click w
  | OnSettings t n c, settings_page => settings t n c w
  | OnHistory c r, history_page =>
      match expense_history_page now c r (session w) with
      | Ok NoExpensesFound =>
          Done w [st_info "No expenses found for the selected filters."]
      | Ok (SpendingSummary total count avg) =>
          Done w [st_markdown_summary total count avg]
      | Raise e => Uncaught w e
      end
  | OnCalculator t p q d a, calculator_page =>
      expense_calculator click_time t p q d a w
  | _, _ => Done w []
  end.

(** ** The status display of the budget page *)








(** What a piece of the script has put on the page when it ends. *)
Definition notices (o : outcome) : list Notice :=
  match o with
  | Done _ out => out
  | Uncaught _ _ => []
  end.

(** * Notions of the specification, for comparison with the code *)

(** The instant of a date-time, as a count of microseconds. *)
Definition instant_us (t : datetime) : Z :=
  (toordinal t * 86400 + seconds_of_day t) * 1000000 + microsecond t.


(** The calendar month of a date-time, counted from year 0. *)
Definition month_index (t : datetime) : Z := year t * 12 + month t.

(** [isResetDue] as the specification words it: a later calendar day;
    seven days of elapsed time; a later calendar month; a later year. *)
Definition isResetDue_spec (t : BudgetType) (start now : datetime) : Prop :=
  match t with
  | Daily => toordinal start < toordinal now
  | Weekly => 7 * (86400 * 1000000) <= instant_us now - instant_us start
  | Monthly => month_index start < month_index now
  | Yearly => year start < year now
  end.

(** The history of [w'] is the history of [w] with further expenses
    appended. *)
Definition history_extends (w w' : World) : Prop :=
  exists added : list Expense,
    expense_history (session w')
    = (expense_history (session w) ++ added)%list.

(** What [save_settings] makes of one expense before [json.dump]. *)
Definition serialized_expense (e : Expense) : pyobj :=
  PyDict (dict_set "date" (PyStr (isoformat (e_date e)))
            match expense_dict e with
            | PyDict items => items
            | _ => []
            end).





(** ** Invariants of the session *)

(** The three budget fields are set together or not at all, and a set
    amount is above zero. *)
Definition budget_consistent (s : SessionState) : Prop :=
  (budget_type s = None /\ budget_amount s = None /\
   budget_start_date s = None) \/
  (exists (t : BudgetType) (a : Decimal) (d : datetime),
      budget_type s = Some t /\ budget_amount s = Some a /\
      budget_start_date s = Some d /\ Decimal_le_int a 0 = false).

(** The current-period list is the most recent part of the history. *)
Definition current_within_history (s : SessionState) : Prop :=
  exists older : list Expense,
    expense_history s = (older ++ expenses s)%list.

(** No amount of the ledger carries a minus sign. *)
Definition amounts_unsigned (s : SessionState) : Prop :=
  Forall (fun e => d_sign (e_amount e) = false) (expenses s) /\
  Forall (fun e => d_sign (e_amount e) = false) (expense_history s).

(** Without a budget the current-period list is empty. *)
Definition current_needs_budget (s : SessionState) : Prop :=
  budget_type s = None -> expenses s = [].

(** ** What the amount parser reads *)





(** The settings file holds what [save_settings] would write for the
    session (a missing file standing for the defaults). *)
Definition settings_in_sync (w : World) : Prop :=
  settings_dict (session w) = Ok (load_settings (settings_file w)).

(** ** Calendar notions *)

(** The month and day of the [n]-th day (counted from 0) of a year: the
    last part of [ord2ymd]. *)
Definition month_day_of_year (leapyear : bool) (n : Z) : Z * Z :=
  let m := Z.shiftr (n + 50) 5 in
  let preceding := DAYS_BEFORE_MONTH m + b2z ((2 <? m) && leapyear) in
  let '(m, preceding) :=
    if n <? preceding
    then (m - 1,
          preceding - (DAYS_IN_MONTH (m - 1) + b2z ((m - 1 =? 2) && leapyear)))
    else (m, preceding) in
  (m, n - preceding + 1).

(** The calendar day after a date. *)
Definition next_day (y m d : Z) : Z * Z * Z :=
  if d <? days_in_month y m then (y, m, d + 1)
  else if m <? 12 then (y, m + 1, 1)
  else (y + 1, 1, 1).

(** * Facts about the amount parser *)

Section AmountParser.

Lemma re_sub_head_kept (s : string) (c : ascii) (r : string) :
  re_sub_non_numeric s = String c r -> is_digit_or_dot c = true.
Proof.
  induction s as [|a s IH]; simpl; [discriminate|].
  destruct (is_digit_or_dot a) eqn:Ha; [|exact IH].
  intros H; injection H as -> _; exact Ha.
Qed.

Lemma re_sub_idempotent (s : string) :
  re_sub_non_numeric (re_sub_non_numeric s) = re_sub_non_numeric s.
Proof.
  induction s as [|a s IH]; simpl; [reflexivity|].
  destruct (is_digit_or_dot a) eqn:Ha; [|exact IH].
  simpl; rewrite Ha, IH; reflexivity.
Qed.

Lemma take_sign_kept (c : ascii) (r : string) :
  is_digit_or_dot c = true -> take_sign (String c r) = (false, String c r).
Proof.
  destruct c as [[|] [|] [|] [|] [|] [|] [|] [|]];
    intros H; try reflexivity; discriminate H.
Qed.

Lemma take_sign_re_sub (s : string) :
  take_sign (re_sub_non_numeric s) = (false, re_sub_non_numeric s).
Proof.
  destruct (re_sub_non_numeric s) as [|c r] eqn:E; [reflexivity|].
  apply take_sign_kept, (re_sub_head_kept s c r E).
Qed.

Lemma Decimal_of_str_cleaned_sign (s : string) (d : Decimal) :
  Decimal_of_str (re_sub_non_numeric s) = Ok d -> d_sign d = false.
Proof.
  unfold Decimal_of_str; rewrite take_sign_re_sub.
  destruct (span_digits (re_sub_non_numeric s)) as [intpart s2].
  destruct (match s2 with
            | String "."%char rest => span_digits rest
            | _ => (EmptyString, s2)
            end) as [fracpart s3].
  destruct (intpart ++ fracpart)%string; [discriminate|].
  destruct (parse_exponent s3); [|discriminate].
  intros H; injection H as <-; reflexivity.
Qed.

Lemma unsigned_value_nonneg (d : Decimal) :
  d_sign d = false -> (0 <= d_value d)%Q.
Proof.
  intros H; unfold d_value, d_signed; rewrite H.
  apply Qmult_le_0_compat.
  - rewrite <- (Zle_Qle 0); lia.
  - apply Qpower_0_le; discriminate.
Qed.

Lemma d_signed_unsigned (d : Decimal) :
  d_sign d = false -> 0 <= d_signed d.
Proof. intros H; unfold d_signed; rewrite H; lia. Qed.


(** A decimal without a sign is never below zero. *)
Lemma unsigned_not_lt_0 (d : Decimal) :
  d_sign d = false -> Decimal_lt_int d 0 = false.
Proof.
  intros H; unfold Decimal_lt_int, Decimal_compare; simpl.
  assert (0 <= d_signed d * 10 ^ (d_exp d - Z.min (d_exp d) 0)).
  { apply Z.mul_nonneg_nonneg;
      [apply d_signed_unsigned, H|apply Z.pow_nonneg; lia]. }
  destruct (Z.compare_spec
              (d_signed d * 10 ^ (d_exp d - Z.min (d_exp d) 0)) 0);
    try reflexivity; lia.
Qed.

Lemma validate_decimal_input_cleaned (value : string) (d : Decimal) :
  validate_decimal_input value = Some d ->
  Decimal_of_str (re_sub_non_numeric value) = Ok d.
Proof.
  unfold validate_decimal_input.
  destruct value; [discriminate|].
  destruct (Decimal_of_str _); [|discriminate].
  intros H; injection H as ->; reflexivity.
Qed.

End AmountParser.

(** C9.  Parsing a text and parsing its cleaned form (every character
    that is not a digit or a decimal point stripped) give the same
    result, a value or a failure alike, and cleaning a second time
    changes nothing. *)
Theorem validate_decimal_input_clean_invariant :
  forall raw : string,
    re_sub_non_numeric (re_sub_non_numeric raw) = re_sub_non_numeric raw /\
    validate_decimal_input (re_sub_non_numeric raw)
    = validate_decimal_input raw /\
    Decimal_of_str (re_sub_non_numeric (re_sub_non_numeric raw))
    = Decimal_of_str (re_sub_non_numeric raw).
Proof.
  intros raw; split; [apply re_sub_idempotent|split].
  - unfold validate_decimal_input.
    rewrite re_sub_idempotent.
    destruct raw as [|c r]; [reflexivity|].
    destruct (re_sub_non_numeric (String c r)) eqn:E; reflexivity.
  - rewrite re_sub_idempotent; reflexivity.
Qed.

(** C10.  Whenever the amount parser succeeds, on the calculator's
    inputs or on the budget and expense forms, its result carries no
    minus sign and its value is at least zero. *)
Theorem parsed_amount_nonnegative :
  forall (raw : string) (d : Decimal),
    (validate_decimal_input raw = Some d \/
     Decimal_of_str (re_sub_non_numeric raw) = Ok d) ->
    d_sign d = false /\ (0 <= d_value d)%Q.
Proof.
  intros raw d H.
  assert (Hd : Decimal_of_str (re_sub_non_numeric raw) = Ok d).
  { destruct H as [H|H]; [apply validate_decimal_input_cleaned|]; exact H. }
  pose proof (Decimal_of_str_cleaned_sign raw d Hd) as Hs.
  split; [exact Hs|apply unsigned_value_nonneg, Hs].
Qed.

Lemma parsed_amount_nonnegative_witness :
  validate_decimal_input "-5" = Some (mkDecimal false 5 0) /\
  Decimal_of_str "-5" = Ok (mkDecimal true 5 0) /\
  d_sign (mkDecimal false 5 0) = false /\
  (0 <= d_value (mkDecimal false 5 0))%Q.
Proof.
  split; [reflexivity|split; [reflexivity|]].
  apply (parsed_amount_nonnegative "-5"); left; reflexivity.
Defined.

(** * Facts about dates *)

(** Splits a goal by the twelve values of a month. *)
Ltac split_month m :=
  let H := fresh "Hm" in
  assert (H : m = 1 \/ m = 2 \/ m = 3 \/ m = 4 \/ m = 5 \/ m = 6 \/
              m = 7 \/ m = 8 \/ m = 9 \/ m = 10 \/ m = 11 \/ m = 12)
    by lia;
  repeat (destruct H as [H|H]); subst m.

Section Calendar.

Lemma days_before_year_step (y : Z) :
  days_before_year (y + 1) = days_before_year y + 365 + b2z (is_leap y).
Proof.
  unfold days_before_year, is_leap, b2z.
  replace (y + 1 - 1) with y by lia.
  destruct (Z.eqb_spec (y mod 4) 0), (Z.eqb_spec (y mod 100) 0),
    (Z.eqb_spec (y mod 400) 0); simpl; Z.div_mod_to_equations; lia.
Qed.

Lemma days_before_year_mono (y1 y2 : Z) :
  y1 <= y2 -> days_before_year y1 <= days_before_year y2.
Proof. unfold days_before_year; Z.div_mod_to_equations; lia. Qed.

Lemma valid_date_bounds (y m d : Z) :
  valid_date y m d = true ->
  1 <= y <= 9999 /\ 1 <= m <= 12 /\ 1 <= d <= days_in_month y m.
Proof.
  unfold valid_date, MINYEAR, MAXYEAR; intros H.
  repeat (apply andb_prop in H; destruct H as [H ?]).
  repeat match goal with
         | H : (_ <=? _) = true |- _ => apply Z.leb_le in H
         end.
  lia.
Qed.

(** The day of the year lies within the year. *)
Lemma day_of_year_bounds (y m d : Z) :
  1 <= m <= 12 -> 1 <= d <= days_in_month y m ->
  1 <= days_before_month y m + d <= 365 + b2z (is_leap y).
Proof.
  intros Hm Hd; unfold days_before_month, days_in_month in *.
  split_month m; destruct (is_leap y); cbn -[Z.add] in *; lia.
Qed.

Lemma valid_time_bounds (h mi s us : Z) :
  valid_time h mi s us = true ->
  0 <= h <= 23 /\ 0 <= mi <= 59 /\ 0 <= s <= 59 /\ 0 <= us <= 999999.
Proof.
  unfold valid_time; intros H.
  repeat (apply andb_prop in H; destruct H as [H ?]).
  repeat match goal with
         | H : (_ <=? _) = true |- _ => apply Z.leb_le in H
         end.
  lia.
Qed.

Lemma days_in_month_le_31 (y m : Z) :
  1 <= m <= 12 -> days_in_month y m <= 31.
Proof.
  intros Hm; unfold days_in_month.
  split_month m; destruct (is_leap y); cbn; lia.
Qed.

Lemma days_in_month_ge_28 (y m : Z) :
  1 <= m <= 12 -> 28 <= days_in_month y m.
Proof.
  intros Hm; unfold days_in_month.
  split_month m; destruct (is_leap y); cbn; lia.
Qed.

(** Within a year a later month starts after every day of an earlier
    one. *)
Lemma days_before_month_mono (y m1 m2 d : Z) :
  1 <= m1 -> m1 < m2 -> m2 <= 12 -> d <= days_in_month y m1 ->
  days_before_month y m1 + d <= days_before_month y m2.
Proof.
  intros H1 H12 H2 Hd; unfold days_before_month, days_in_month in *.
  split_month m1; split_month m2; try lia;
    destruct (is_leap y); cbn -[Z.add] in *; lia.
Qed.

Lemma ymd2ord_year_lt (y1 m1 d1 y2 m2 d2 : Z) :
  valid_date y1 m1 d1 = true -> valid_date y2 m2 d2 = true ->
  y1 < y2 -> ymd2ord y1 m1 d1 < ymd2ord y2 m2 d2.
Proof.
  intros V1 V2 Hy.
  apply valid_date_bounds in V1, V2.
  pose proof (day_of_year_bounds y1 m1 d1 ltac:(lia) ltac:(lia)).
  pose proof (day_of_year_bounds y2 m2 d2 ltac:(lia) ltac:(lia)).
  pose proof (days_before_year_step y1).
  pose proof (days_before_year_mono (y1 + 1) y2 ltac:(lia)).
  unfold ymd2ord; lia.
Qed.

Lemma ymd2ord_month_lt (y m1 d1 m2 d2 : Z) :
  valid_date y m1 d1 = true -> valid_date y m2 d2 = true ->
  m1 < m2 -> ymd2ord y m1 d1 < ymd2ord y m2 d2.
Proof.
  intros V1 V2 Hm.
  apply valid_date_bounds in V1, V2.
  pose proof (days_before_month_mono y m1 m2 d1
                ltac:(lia) Hm ltac:(lia) ltac:(lia)).
  unfold ymd2ord; lia.
Qed.

(** On valid dates the tuple order is the order of the day numbers. *)
Lemma lex_compare_ymd2ord (y1 m1 d1 y2 m2 d2 : Z) :
  valid_date y1 m1 d1 = true -> valid_date y2 m2 d2 = true ->
  lex_compare [y1; m1; d1] [y2; m2; d2]
  = (ymd2ord y1 m1 d1 ?= ymd2ord y2 m2 d2).
Proof.
  intros V1 V2; simpl.
  destruct (Z.compare_spec y1 y2) as [->|Hy|Hy].
  - destruct (Z.compare_spec m1 m2) as [->|Hm|Hm].
    + unfold ymd2ord.
      destruct (Z.compare_spec d1 d2) as [->|Hd|Hd]; symmetry.
      * apply Z.compare_refl.
      * apply Z.compare_lt_iff; lia.
      * apply Z.compare_gt_iff; lia.
    + symmetry; apply Z.compare_lt_iff.
      apply ymd2ord_month_lt; assumption.
    + symmetry; apply Z.compare_gt_iff.
      apply ymd2ord_month_lt; assumption.
  - symmetry; apply Z.compare_lt_iff.
    apply ymd2ord_year_lt; assumption.
  - symmetry; apply Z.compare_gt_iff.
    apply ymd2ord_year_lt; assumption.
Qed.

Lemma valid_datetime_date (t : datetime) :
  valid_datetime t = true -> valid_date (year t) (month t) (day t) = true.
Proof.
  unfold valid_datetime; intros H; apply andb_prop in H; tauto.
Qed.

Lemma date_gt_toordinal (a b : datetime) :
  valid_datetime a = true -> valid_datetime b = true ->
  (date_gt a b = true <-> toordinal b < toordinal a).
Proof.
  intros Va Vb; apply valid_datetime_date in Va, Vb.
  unfold date_gt, date_fields, toordinal.
  rewrite (lex_compare_ymd2ord _ _ _ _ _ _ Va Vb).
  destruct (Z.compare_spec (ymd2ord (year a) (month a) (day a))
                           (ymd2ord (year b) (month b) (day b)));
    split; intros; try discriminate; try reflexivity; lia.
Qed.

(** [(a - b).days] is the floor of the elapsed time in days. *)
Lemma days_datetime_sub (a b : datetime) :
  days (datetime_sub a b)
  = (instant_us a - instant_us b) / (86400 * 1000000).
Proof.
  unfold datetime_sub, timedelta_new, instant_us; simpl.
  Z.div_mod_to_equations; lia.
Qed.

End Calendar.

(** C5.  For valid start and current date-times the rollover test of
    each budget type is the one specified: Daily when the calendar day
    of now is after that of start, Weekly when at least seven days of
    elapsed time have passed, Monthly when the calendar month of now is
    after that of start (the day of the month plays no part), Yearly
    when the year of now is greater. *)
Theorem reset_needed_is_isResetDue :
  forall (t : BudgetType) (start now : datetime),
    valid_datetime start = true ->
    valid_datetime now = true ->
    (reset_needed (Some t) start now = true <-> isResetDue_spec t start now).
Proof.
  intros t start now Vs Vn.
  destruct t; unfold reset_needed, isResetDue_spec.
  - apply date_gt_toordinal; assumption.
  - rewrite days_datetime_sub, Z.leb_le.
    Z.div_mod_to_equations; lia.
  - apply valid_datetime_date, valid_date_bounds in Vs, Vn.
    unfold month_index.
    rewrite orb_true_iff, andb_true_iff, !Z.ltb_lt, Z.eqb_eq; lia.
  - apply Z.ltb_lt.
Qed.

Lemma reset_needed_is_isResetDue_witness :
  valid_datetime (mkDatetime 2024 1 1 23 0 0 0) = true /\
  valid_datetime (mkDatetime 2024 1 2 0 1 0 0) = true /\
  (reset_needed (Some Daily) (mkDatetime 2024 1 1 23 0 0 0)
                (mkDatetime 2024 1 2 0 1 0 0) = true
   <-> isResetDue_spec Daily (mkDatetime 2024 1 1 23 0 0 0)
                       (mkDatetime 2024 1 2 0 1 0 0)).
Proof.
  split; [reflexivity|split; [reflexivity|]].
  apply (reset_needed_is_isResetDue Daily); reflexivity.
Defined.

(** The examples of the specification: a day boundary crossed after an
    hour; six days and 23:59 against seven days; the 31st of January
    against the 1st of February. *)
Lemma reset_needed_examples :
  reset_needed (Some Daily) (mkDatetime 2024 1 1 23 0 0 0)
               (mkDatetime 2024 1 2 0 1 0 0) = true /\
  reset_needed (Some Weekly) (mkDatetime 2024 1 1 0 0 0 0)
               (mkDatetime 2024 1 7 23 59 0 0) = false /\
  reset_needed (Some Weekly) (mkDatetime 2024 1 1 0 0 0 0)
               (mkDatetime 2024 1 8 0 0 0 0) = true /\
  reset_needed (Some Monthly) (mkDatetime 2024 1 31 0 0 0 0)
               (mkDatetime 2024 2 1 0 0 0 0) = true.
Proof. repeat split; reflexivity. Qed.

(** * The order of date-times is the order of instants *)

Section Instants.





End Instants.

(** * The ledger: what each operation does to the history *)

Section Ledger.

Lemma history_extends_refl (w : World) : history_extends w w.
Proof. exists []; rewrite app_nil_r; reflexivity. Qed.

Lemma history_extends_trans (w1 w2 w3 : World) :
  history_extends w1 w2 -> history_extends w2 w3 -> history_extends w1 w3.
Proof.
  intros [a Ha] [b Hb]; exists (a ++ b)%list.
  rewrite Hb, Ha, app_assoc; reflexivity.
Qed.

Lemma history_extends_same (w w' : World) :
  expense_history (session w') = expense_history (session w) ->
  history_extends w w'.
Proof. intros H; exists []; rewrite app_nil_r; exact H. Qed.

Lemma save_settings_session (w : World) :
  session (world_of (save_settings w)) = session w.
Proof.
  unfold save_settings.
  destruct (settings_dict (session w)); [|reflexivity].
  destruct (json_encode a); reflexivity.
Qed.

Lemma save_settings_extends (w0 w : World) :
  history_extends w0 w -> history_extends w0 (world_of (save_settings w)).
Proof.
  intros H; apply (history_extends_trans _ w); [exact H|].
  apply history_extends_same; rewrite save_settings_session; reflexivity.
Qed.

Lemma and_then_extends (w0 : World) (o : outcome) (k : World -> outcome) :
  history_extends w0 (world_of o) ->
  (forall w, history_extends w0 w -> history_extends w0 (world_of (k w))) ->
  history_extends w0 (world_of (and_then o k)).
Proof.
  intros Ho Hk; destruct o as [w out|w e]; simpl in *; [|exact Ho].
  specialize (Hk w Ho); destruct (k w); exact Hk.
Qed.

Lemma check_budget_reset_history (now : datetime) (s : SessionState) :
  expense_history (check_budget_reset now s) = expense_history s.
Proof.
  unfold check_budget_reset.
  destruct (budget_start_date s); [|reflexivity].
  destruct (reset_needed _ _ _); reflexivity.
Qed.

Lemma add_expense_extends (now : datetime) (amount : Decimal)
    (description category : string) (w : World) :
  history_extends w (world_of (add_expense now amount description category w)).
Proof.
  unfold add_expense.
  destruct (budget_start_date (session w));
    [|apply history_extends_refl].
  destruct (get_next_reset_date (session w));
    [|apply history_extends_refl].
  destruct (budget_type (session w)); [|apply history_extends_refl].
  apply save_settings_extends; eexists; reflexivity.
Qed.

Lemma add_expense_clicked_extends (click_time : datetime)
    (category amount_text description : string) (w : World) :
  history_extends w
    (world_of (add_expense_clicked click_time category amount_text
                                   description w)).
Proof.
  unfold add_expense_clicked.
  destruct (Decimal_of_str _) as [d|e].
  - destruct (Decimal_le_int d 0); [apply history_extends_refl|].
    pose proof (add_expense_extends click_time d description category w)
      as H.
    destruct (add_expense click_time d description category w)
      as [w' out|w' e]; [exact H|].
    destruct (is_invalid_amount_error e); exact H.
  - destruct (is_invalid_amount_error e); apply history_extends_refl.
Qed.

Lemma set_budget_extends (click_time : datetime) (t : BudgetType)
    (text : string) (w : World) :
  history_extends w (world_of (set_budget click_time t text w)).
Proof.
  unfold set_budget.
  destruct (Decimal_of_str _) as [d|e].
  - destruct (Decimal_le_int d 0);
      apply history_extends_same; reflexivity.
  - destruct (is_invalid_amount_error e); apply history_extends_refl.
Qed.

Lemma budget_tracker_extends (now click_time : datetime)
    (click : BudgetClick) (w : World) :
  history_extends w (world_of (budget_tracker now click_time click w)).
Proof.
  unfold budget_tracker.
  set (s := match budget_type (session w) with
            | Some _ => check_budget_reset now (session w)
            | None => session w
            end).
  assert (Hs : history_extends w (set_session w s)).
  { apply history_extends_same; subst s; simpl.
    destruct (budget_type (session w));
      [apply check_budget_reset_history|reflexivity]. }
  assert (Hadd : forall c a d,
             history_extends w
               (world_of (add_expense_clicked click_time c a d
                                              (set_session w s)))).
  { intros; eapply history_extends_trans;
      [exact Hs|apply add_expense_clicked_extends]. }
  assert (Hset : forall t a,
             history_extends w
               (world_of (set_budget click_time t a (set_session w s)))).
  { intros; eapply history_extends_trans;
      [exact Hs|apply set_budget_extends]. }
  destruct click;
    try (apply history_extends_same; reflexivity);
    destruct (budget_type s); try exact Hs; try apply Hset;
    destruct (remaining_budget s); try exact Hs;
    destruct (get_next_reset_date s); try exact Hs; try apply Hadd.
Qed.

Lemma expense_calculator_extends (click_time : datetime)
    (expense_type item_price quantity : string)
    (describe : Decimal -> Decimal -> string) (add_to_budget : bool)
    (w : World) :
  history_extends w
    (world_of (expense_calculator click_time expense_type item_price
                                  quantity describe add_to_budget w)).
Proof.
  unfold expense_calculator.
  destruct (validate_decimal_input item_price) as [price|];
    [|apply history_extends_refl].
  destruct (validate_decimal_input quantity) as [qty|];
    [|apply history_extends_refl].
  destruct (_ || _); [apply history_extends_refl|].
  destruct add_to_budget; [|apply history_extends_refl].
  apply and_then_extends; [apply history_extends_refl|].
  intros w1 H1; eapply history_extends_trans;
    [exact H1|apply add_expense_extends].
Qed.

Lemma main_menu_extends (settings_clicked : bool)
    (selected_currency : string) (goto : option Page) (w : World) :
  history_extends w
    (world_of (main_menu settings_clicked selected_currency goto w)).
Proof.
  unfold main_menu.
  set (w' := if settings_clicked
             then set_session w (with_page (session w) settings_page)
             else w).
  assert (H' : history_extends w w').
  { subst w'; destruct settings_clicked;
      apply history_extends_same; reflexivity. }
  apply and_then_extends.
  - destruct (String.eqb _ _);
      [exact H'|apply save_settings_extends; exact H'].
  - intros w1 H1; destruct goto; exact H1.
Qed.

Lemma settings_extends (selected_theme : string)
    (notifications critical_warning : bool) (w : World) :
  history_extends w
    (world_of (settings selected_theme notifications critical_warning w)).
Proof.
  unfold settings.
  destruct (negb _);
    [apply save_settings_extends, history_extends_same; reflexivity|].
  apply and_then_extends.
  - destruct (Bool.eqb _ _);
      [|apply save_settings_extends];
      apply history_extends_same; reflexivity.
  - intros w1 H1.
    destruct (notifications_enabled (session w1)); [|exact H1].
    destruct (Bool.eqb _ _); [exact H1|].
    apply save_settings_extends; exact H1.
Qed.

Lemma run_script_extends (now click_time : datetime) (i : Interaction)
    (w : World) :
  history_extends w (world_of (run_script now click_time i w)).
Proof.
  unfold run_script.
  destruct i, (page (session w)); try apply history_extends_refl.
  all: try (apply history_extends_same; reflexivity).
  - apply main_menu_extends.
  - apply budget_tracker_extends.
  - apply settings_extends.
  - destruct (expense_history_page _ _ _ _) as [[|]|];
      apply history_extends_refl.
  - apply expense_calculator_extends.
Qed.

End Ledger.

(** C6.  No operation clears the history.  Every run of the script,
    whatever the user does, leaves the history as it was or appends to
    it.  An automatic rollover sets the start to now and empties the
    current-period list only; the reset-budget action clears the three
    budget fields and the current-period list; both leave the history as
    it was. *)
Theorem history_never_cleared :
  (forall (now click_time : datetime) (i : Interaction) (w : World),
      history_extends w (world_of (run_script now click_time i w))) /\
  (forall (now start : datetime) (s : SessionState),
      budget_start_date s = Some start ->
      reset_needed (budget_type s) start now = true ->
      let s' := check_budget_reset now s in
      budget_start_date s' = Some now /\
      expenses s' = [] /\
      expense_history s' = expense_history s /\
      budget_type s' = budget_type s /\
      budget_amount s' = budget_amount s) /\
  (forall w : World,
      exists w' : World,
        reset_budget w = Done w' [] /\
        budget_type (session w') = None /\
        budget_amount (session w') = None /\
        budget_start_date (session w') = None /\
        expenses (session w') = [] /\
        expense_history (session w') = expense_history (session w)).
Proof.
  split; [exact run_script_extends|split].
  - intros now start s Hstart Hdue; unfold check_budget_reset.
    rewrite Hstart, Hdue; simpl; repeat split; reflexivity.
  - intros w; eexists; split; [reflexivity|].
    simpl; repeat split; reflexivity.
Qed.

Lemma history_never_cleared_witness :
  let start := mkDatetime 2024 1 31 9 0 0 0 in
  let e0 := mkExpense (mkDatetime 2023 12 30 18 0 0 0)
                      (mkDecimal false 1200 (-2)) "" "Gas" "USD"
                      (Some Monthly) "2023-12-05 to 2024-01-05" in
  let e1 := mkExpense (mkDatetime 2024 1 31 12 0 0 0)
                      (mkDecimal false 4550 (-2)) "lunch" "Food" "USD"
                      (Some Monthly) "2024-01-31 to 2024-02-29" in
  let s := mkSession budget_page "USD" "light" true true (Some Monthly)
                     (Some (mkDecimal false 100000 (-2))) (Some start)
                     [e1] [e0; e1] in
  let now := mkDatetime 2024 2 1 0 0 0 0 in
  budget_start_date s = Some start /\
  reset_needed (budget_type s) start now = true /\
  budget_start_date (check_budget_reset now s) = Some now /\
  expenses (check_budget_reset now s) = [] /\
  expense_history (check_budget_reset now s) = [e0; e1].
Proof.
  intros start e0 e1 s now.
  split; [reflexivity|split; [reflexivity|]].
  destruct (proj1 (proj2 history_never_cleared) now start s
                  eq_refl eq_refl)
    as (H1 & H2 & H3 & _).
  repeat split; assumption.
Defined.

(** * Adding an expense *)

(** C1 (the code does otherwise).  With no budget set, [add_expense]
    does not return: reading the start date for the period label raises
    AttributeError before the test on the budget type is reached.  The
    session is left as it was, and the calculator, which calls
    [add_expense] outside any handler, lets the exception through. *)
Theorem add_expense_without_budget_raises :
  forall (now : datetime) (amount : Decimal) (description category : string)
         (w : World),
    budget_type (session w) = None ->
    budget_amount (session w) = None ->
    budget_start_date (session w) = None ->
    add_expense now amount description category w
    = Uncaught w AttributeError /\
    (forall (expense_type item_price quantity : string)
            (describe : Decimal -> Decimal -> string) (price qty : Decimal),
        validate_decimal_input item_price = Some price ->
        validate_decimal_input quantity = Some qty ->
        expense_calculator now expense_type item_price quantity describe
                           true w
        = Uncaught w AttributeError).
Proof.
  intros now amount description category w Ht Ha Hd.
  assert (Hadd : forall a d c,
             add_expense now a d c w = Uncaught w AttributeError).
  { intros; unfold add_expense; rewrite Hd; reflexivity. }
  split; [apply Hadd|].
  intros expense_type item_price quantity describe price qty Hp Hq.
  unfold expense_calculator; rewrite Hp, Hq.
  apply validate_decimal_input_cleaned, Decimal_of_str_cleaned_sign in Hp, Hq.
  rewrite (unsigned_not_lt_0 price Hp), (unsigned_not_lt_0 qty Hq); simpl.
  rewrite Hadd; reflexivity.
Qed.

Lemma add_expense_without_budget_raises_witness :
  let w := mkWorld (mkSession calculator_page "USD" "light" true true
                              None None None [] []) NoFile in
  let now := mkDatetime 2024 1 15 10 0 0 0 in
  add_expense now (mkDecimal false 4550 (-2)) "lunch" "Food" w
  = Uncaught w AttributeError /\
  expense_calculator now "Food" "2" "3" (fun _ _ => "") true w
  = Uncaught w AttributeError.
Proof.
  intros w now.
  destruct (add_expense_without_budget_raises
              now (mkDecimal false 4550 (-2)) "lunch" "Food" w
              eq_refl eq_refl eq_refl) as [H1 H2].
  split; [exact H1|].
  apply (H2 "Food" "2" "3" (fun _ _ => "")
            (mkDecimal false 2 0) (mkDecimal false 3 0));
    reflexivity.
Defined.

(** * The next reset date *)

(** C2 (the code does otherwise).  For a monthly budget whose start day
    does not exist in the following month, [get_next_reset_date] raises
    ValueError: [replace] keeps the day of the month and does not clamp
    it. *)
Theorem monthly_next_reset_raises_on_short_month :
  forall (s : SessionState) (start : datetime),
    budget_type s = Some Monthly ->
    budget_start_date s = Some start ->
    valid_datetime start = true ->
    days_in_month (year start + b2z (12 <? month start + 1))
                  ((month start + 1 - 1) mod 12 + 1)
    < day start ->
    get_next_reset_date s = Raise ValueError.
Proof.
  intros s start Ht Hs Hv Hday.
  unfold get_next_reset_date; rewrite Hs, Ht.
  unfold replace_year_month, datetime_new.
  assert (Hd : valid_date (year start + b2z (12 <? month start + 1))
                          ((month start + 1 - 1) mod 12 + 1) (day start)
               = false).
  { unfold valid_date.
    apply Z.ltb_lt in Hday; rewrite Z.ltb_antisym in Hday.
    apply negb_true_iff in Hday; rewrite Hday.
    apply andb_false_r. }
  rewrite Hd; reflexivity.
Qed.

Lemma monthly_next_reset_raises_on_short_month_witness :
  let start := mkDatetime 2024 1 31 9 0 0 0 in
  let s := mkSession budget_page "USD" "light" true true (Some Monthly)
                     (Some (mkDecimal false 100000 (-2))) (Some start)
                     [] [] in
  valid_datetime start = true /\
  get_next_reset_date s = Raise ValueError /\
  budget_tracker start start NoClick (mkWorld s NoFile)
  = Uncaught (mkWorld s NoFile) ValueError.
Proof.
  intros start s.
  split; [reflexivity|split; [|reflexivity]].
  apply (monthly_next_reset_raises_on_short_month s start);
    reflexivity.
Defined.

(** Where the day exists in the following month the date is the same
    day of that month. *)
Lemma monthly_next_reset_defined (s : SessionState) (start : datetime) :
  budget_type s = Some Monthly ->
  budget_start_date s = Some start ->
  valid_datetime start = true ->
  day start <= 28 ->
  year start < 9999 ->
  get_next_reset_date s
  = Ok (strftime_Ymd
          (mkDatetime (if month start =? 12 then year start + 1
                       else year start)
                      (if month start =? 12 then 1 else month start + 1)
                      (day start) (hour start) (minute start)
                      (second start) (microsecond start))).
Proof.
  intros Ht Hs Hv Hday Hyear.
  unfold get_next_reset_date; rewrite Hs, Ht.
  unfold valid_datetime in Hv; apply andb_prop in Hv; destruct Hv as [Hd Htm].
  apply valid_date_bounds in Hd; destruct Hd as (Hy & Hm & Hdd).
  assert (Hny : year start + b2z (12 <? month start + 1)
                = if month start =? 12 then year start + 1 else year start).
  { destruct (Z.eqb_spec (month start) 12),
      (Z.ltb_spec 12 (month start + 1)); simpl; lia. }
  assert (Hnm : (month start + 1 - 1) mod 12 + 1
                = if month start =? 12 then 1 else month start + 1).
  { destruct (Z.eqb_spec (month start) 12) as [E|E];
      [rewrite E; reflexivity|].
    replace (month start + 1 - 1) with (month start) by lia.
    rewrite Z.mod_small; lia. }
  rewrite Hny, Hnm.
  unfold replace_year_month, datetime_new; rewrite Htm, andb_true_r.
  assert (Hvd : valid_date
                  (if month start =? 12 then year start + 1 else year start)
                  (if month start =? 12 then 1 else month start + 1)
                  (day start) = true).
  { unfold valid_date, MINYEAR, MAXYEAR.
    pose proof (days_in_month_ge_28
                  (if month start =? 12 then year start + 1 else year start)
                  (if month start =? 12 then 1 else month start + 1)) as H28.
    destruct (Z.eqb_spec (month start) 12);
      repeat (apply andb_true_intro; split); apply Z.leb_le; lia. }
  rewrite Hvd; reflexivity.
Qed.

(** * The timestamp survives its ISO form *)

Section IsoFormat.

Lemma digit_char_spec (n : Z) :
  is_digit (digit_char n) = true /\
  Z.of_N (digit_val (digit_char n)) = n mod 10.
Proof.
  unfold digit_char.
  pose proof (Z.mod_pos_bound n 10 ltac:(lia)) as Hr.
  set (r := n mod 10) in *; clearbody r.
  assert (H : r = 0 \/ r = 1 \/ r = 2 \/ r = 3 \/ r = 4 \/ r = 5 \/
              r = 6 \/ r = 7 \/ r = 8 \/ r = 9) by lia.
  repeat (destruct H as [H|H]); subst r; split; reflexivity.
Qed.

Lemma read_digits_zero_padded (w : nat) :
  forall (k : nat) (n acc : Z) (s : string),
    0 <= n < 10 ^ Z.of_nat w ->
    read_digits (w + k) acc (zero_padded w n s)
    = read_digits k (acc * 10 ^ Z.of_nat w + n) s.
Proof.
  induction w as [|w IH]; intros k n acc s Hn.
  - simpl in *; f_equal; lia.
  - cbn [zero_padded].
    replace (S w + k)%nat with (w + S k)%nat by lia.
    rewrite Nat2Z.inj_succ, Z.pow_succ_r in Hn by lia.
    rewrite IH by (Z.div_mod_to_equations; lia).
    cbn [read_digits].
    destruct (digit_char_spec n) as [Hd Hv]; rewrite Hd, Hv.
    f_equal.
    rewrite Nat2Z.inj_succ, Z.pow_succ_r by lia.
    Z.div_mod_to_equations; lia.
Qed.

Lemma read_digits_padded (w : nat) (n : Z) (s : string) :
  0 <= n < 10 ^ Z.of_nat w ->
  read_digits w 0 (zero_padded w n s) = Some (n, s).
Proof.
  intros Hn.
  pose proof (read_digits_zero_padded w 0 n 0 s Hn) as H.
  rewrite Nat.add_0_r in H; rewrite H; reflexivity.
Qed.

Lemma expect_same (c : ascii) (s : string) : expect c (String c s) = Some s.
Proof. unfold expect; rewrite Ascii.eqb_refl; reflexivity. Qed.

(** Parsing the ISO form of a valid date-time gives it back. *)
Lemma fromisoformat_isoformat (t : datetime) :
  valid_datetime t = true -> fromisoformat (isoformat t) = Ok t.
Proof.
  intros Hv.
  pose proof Hv as Hv'.
  unfold valid_datetime in Hv'; apply andb_prop in Hv'.
  destruct Hv' as [Hd Ht].
  apply valid_date_bounds in Hd; apply valid_time_bounds in Ht.
  pose proof (days_in_month_le_31 (year t) (month t) ltac:(lia)) as H31.
  destruct t as [y m d h mi sec us]; cbn [year month day hour minute second
                                          microsecond] in *.
  unfold fromisoformat, parse_iso_fields, isoformat.
  cbn [year month day hour minute second microsecond].
  repeat (first [rewrite read_digits_padded by (cbn; lia)
                | rewrite expect_same]; cbn [obind]).
  assert (Hnew : datetime_new y m d h mi sec us
                 = Ok (mkDatetime y m d h mi sec us)).
  { unfold datetime_new; unfold valid_datetime in Hv; simpl in Hv.
    rewrite Hv; reflexivity. }
  destruct (Z.eqb_spec us 0) as [->|Hus]; [exact Hnew|].
  rewrite expect_same; cbn [obind].
  rewrite read_digits_padded by (cbn; lia); exact Hnew.
Qed.

End IsoFormat.

(** * Persisting the history *)

Section Persistence.

Lemma serialize_expense_dict (e : Expense) :
  serialize_expense (expense_dict e) = Ok (serialized_expense e).
Proof. reflexivity. Qed.

Lemma map_result_serialize (l : list Expense) :
  map_result serialize_expense (map expense_dict l)
  = Ok (map serialized_expense l).
Proof.
  induction l as [|e l IH]; [reflexivity|].
  cbn [map map_result]; rewrite serialize_expense_dict, IH; reflexivity.
Qed.

Lemma json_encode_serialized_expense (e : Expense) :
  json_encode (serialized_expense e) = Raise TypeError.
Proof. reflexivity. Qed.

End Persistence.

(** X10.  The two comprehensions that convert the date are inverse on
    the expenses of the program: what [save_settings] makes of an
    expense (its date as an ISO string), start-up turns back into the
    same dictionary, the date parsed to the same date-time. *)
Lemma deserialize_serialized_expense (e : Expense) :
  valid_datetime (e_date e) = true ->
  deserialize_expense (serialized_expense e) = Ok (expense_dict e).
Proof.
  intros Hv; unfold deserialize_expense, serialized_expense, expense_dict.
  cbn [dict_set dict_get String.eqb Ascii.eqb Bool.eqb andb bind].
  rewrite (fromisoformat_isoformat _ Hv); reflexivity.
Qed.

(** C3 (the code does otherwise).  No expense survives serialization:
    the date is turned into an ISO string, but the amount stays a
    Decimal, which [json.dump] refuses with TypeError.  With any expense
    in the history [save_settings] therefore fails, leaves a settings
    file that is not JSON, and the next start-up falls back to the
    defaults, whose history is empty. *)
Theorem expense_not_json_serializable :
  forall e : Expense,
    (exists d : pyobj,
        serialize_expense (expense_dict e) = Ok d /\
        json_encode d = Raise TypeError) /\
    (forall w : World,
        In e (expense_history (session w)) ->
        save_settings w
        = Done (mkWorld (session w) Garbled)
               [st_error "Failed to save settings"] /\
        load_settings (settings_file (world_of (save_settings w)))
        = get_default_settings /\
        restored_history
          (load_settings (settings_file (world_of (save_settings w))))
        = Ok []).
Proof.
  intros e; split.
  - exists (serialized_expense e); split; reflexivity.
  - intros w Hin.
    assert (Hsave : save_settings w
                    = Done (mkWorld (session w) Garbled)
                           [st_error "Failed to save settings"]).
    { unfold save_settings, settings_dict.
      rewrite map_result_serialize.
      destruct (expense_history (session w)) as [|x rest];
        [destruct Hin|reflexivity]. }
    rewrite Hsave; repeat split; reflexivity.
Qed.

Lemma expense_not_json_serializable_witness :
  let e := mkExpense (mkDatetime 2024 1 15 10 0 0 0)
                     (mkDecimal false 4550 (-2)) "lunch" "Food" "USD"
                     (Some Monthly) "2024-01-15 to 2024-02-15" in
  let w := mkWorld (mkSession budget_page "USD" "light" true true
                              (Some Monthly)
                              (Some (mkDecimal false 100000 (-2)))
                              (Some (mkDatetime 2024 1 15 9 0 0 0))
                              [e] [e]) NoFile in
  In e (expense_history (session w)) /\
  save_settings w
  = Done (mkWorld (session w) Garbled) [st_error "Failed to save settings"].
Proof.
  intros e w.
  assert (Hin : In e (expense_history (session w))) by (left; reflexivity).
  split; [exact Hin|].
  exact (proj1 (proj2 (expense_not_json_serializable e) w Hin)).
Defined.

(** * Sign validation at the entry points *)

Lemma zero_le_int_0 (d : Decimal) :
  d_int d = 0%N -> Decimal_le_int d 0 = true.
Proof.
  intros H; unfold Decimal_le_int, Decimal_compare, d_signed; rewrite H.
  destruct (d_sign d); reflexivity.
Qed.

(** C4 (the code does otherwise).  The entry points do not validate the
    sign alike.  The budget and expense forms reject a zero amount; the
    calculator tests [price < 0 or qty < 0], which no parsed value
    satisfies, so it rejects nothing: every price and quantity that
    parse, zero included, are accepted and their product is shown. *)
Theorem calculator_sign_check_differs :
  forall (now : datetime) (w : World) (expense_type item_price quantity : string)
         (describe : Decimal -> Decimal -> string) (price qty : Decimal),
    validate_decimal_input item_price = Some price ->
    validate_decimal_input quantity = Some qty ->
    expense_calculator now expense_type item_price quantity describe false w
    = Done w [st_success (if String.eqb expense_type "Food"
                          then "Total food expense"
                          else "Total gas expense")
                         (Decimal_mul price qty)] /\
    (d_int price = 0%N ->
     forall (t : BudgetType) (category description : string),
       set_budget now t item_price w
       = Done w [st_error "Please enter a positive budget amount."] /\
       add_expense_clicked now category item_price description w
       = Done w [st_error "Please enter a positive amount."]).
Proof.
  intros now w expense_type item_price quantity describe price qty Hp Hq.
  pose proof (validate_decimal_input_cleaned _ _ Hp) as Hp'.
  pose proof (validate_decimal_input_cleaned _ _ Hq) as Hq'.
  split.
  - unfold expense_calculator; rewrite Hp, Hq.
    rewrite (unsigned_not_lt_0 price (Decimal_of_str_cleaned_sign _ _ Hp')).
    rewrite (unsigned_not_lt_0 qty (Decimal_of_str_cleaned_sign _ _ Hq')).
    reflexivity.
  - intros Hzero t category description.
    unfold set_budget, add_expense_clicked.
    rewrite Hp', (zero_le_int_0 price Hzero); split; reflexivity.
Qed.

Lemma calculator_sign_check_differs_witness :
  let w := mkWorld (mkSession calculator_page "USD" "light" true true
                              None None None [] []) NoFile in
  let now := mkDatetime 2024 1 15 10 0 0 0 in
  expense_calculator now "Food" "0" "3" (fun _ _ => "") false w
  = Done w [st_success "Total food expense" (mkDecimal false 0 0)] /\
  set_budget now Monthly "0" w
  = Done w [st_error "Please enter a positive budget amount."] /\
  add_expense_clicked now "Food" "0" "" w
  = Done w [st_error "Please enter a positive amount."].
Proof.
  intros w now.
  destruct (calculator_sign_check_differs
              now w "Food" "0" "3" (fun _ _ => "")
              (mkDecimal false 0 0) (mkDecimal false 3 0)
              eq_refl eq_refl) as [H1 H2].
  split; [exact H1|].
  exact (H2 eq_refl Monthly "Food" "").
Defined.

(** With a budget set, the zero total of the calculator is recorded as
    an expense. *)
Lemma calculator_records_zero_expense :
  let start := mkDatetime 2024 1 15 9 0 0 0 in
  let now := mkDatetime 2024 1 15 10 0 0 0 in
  let w := mkWorld (mkSession calculator_page "USD" "light" true true
                              (Some Monthly)
                              (Some (mkDecimal false 100000 (-2)))
                              (Some start) [] []) NoFile in
  map e_amount
      (expenses (session (world_of
         (expense_calculator now "Food" "0" "3" (fun _ _ => "") true w))))
  = [mkDecimal false 0 0].
Proof. reflexivity. Qed.

(** * Decimal arithmetic within the precision of the context *)

Section Exactness.






Lemma Decimal_add_comm (a b : Decimal) :
  Decimal_add a b = Decimal_add b a.
Proof.
  unfold Decimal_add.
  rewrite (Z.min_comm (d_exp a)), (andb_comm (d_sign a)).
  rewrite (Z.add_comm (d_signed a * _)); reflexivity.
Qed.









End Exactness.

(** * The remaining budget *)




(** * The spending summary *)

Section Summary.

Lemma lex_compare_refl (a : list Z) : lex_compare a a = Eq.
Proof.
  induction a as [|x a IH]; simpl; [reflexivity|].
  rewrite Z.compare_refl; exact IH.
Qed.







End Summary.




(** * Invariants kept by every run of the script *)

Section Invariant.

(** A property of the session that depends on the budget fields and the
    ledger only, and that each of the four updates of the program keeps. *)
Variable P : SessionState -> Prop.

Hypothesis P_frame :
  forall s s' : SessionState,
    budget_type s' = budget_type s ->
    budget_amount s' = budget_amount s ->
    budget_start_date s' = budget_start_date s ->
    expenses s' = expenses s ->
    expense_history s' = expense_history s ->
    P s -> P s'.

Hypothesis P_rollover :
  forall (now start : datetime) (s : SessionState),
    budget_start_date s = Some start ->
    P s ->
    P (with_budget s (budget_type s) (budget_amount s) (Some now) []).

Hypothesis P_set_budget :
  forall (s : SessionState) (t : BudgetType) (a : Decimal) (d : datetime),
    budget_type s = None ->
    Decimal_le_int a 0 = false ->
    P s ->
    P (with_budget s (Some t) (Some a) (Some d) (expenses s)).

Hypothesis P_reset_budget :
  forall s : SessionState, P s -> P (with_budget s None None None []).

Hypothesis P_add_expense :
  forall (s : SessionState) (e : Expense),
    d_sign (e_amount e) = false ->
    budget_type s <> None ->
    P s ->
    P (with_ledger s (expenses s ++ [e])%list
                     (expense_history s ++ [e])%list).

Lemma save_settings_keeps (w : World) :
  P (session w) -> P (session (world_of (save_settings w))).
Proof. rewrite save_settings_session; exact (fun H => H). Qed.

Lemma and_then_keeps (o : outcome) (k : World -> outcome) :
  P (session (world_of o)) ->
  (forall w, P (session w) -> P (session (world_of (k w)))) ->
  P (session (world_of (and_then o k))).
Proof.
  intros Ho Hk; destruct o as [w out|w e]; simpl in *; [|exact Ho].
  specialize (Hk w Ho); destruct (k w); exact Hk.
Qed.

Lemma check_budget_reset_keeps (now : datetime) (s : SessionState) :
  P s -> P (check_budget_reset now s).
Proof.
  intros H; unfold check_budget_reset.
  destruct (budget_start_date s) as [start|] eqn:Hs; [|exact H].
  destruct (reset_needed _ _ _); [|exact H].
  apply (P_rollover now start); assumption.
Qed.

Lemma add_expense_keeps (now : datetime) (amount : Decimal)
    (description category : string) (w : World) :
  d_sign amount = false ->
  P (session w) ->
  P (session (world_of (add_expense now amount description category w))).
Proof.
  intros Ha H; unfold add_expense.
  destruct (budget_start_date (session w)); [|exact H].
  destruct (get_next_reset_date (session w)); [|exact H].
  destruct (budget_type (session w)) eqn:Ht; [|exact H].
  apply save_settings_keeps; simpl.
  apply P_add_expense; [assumption|rewrite Ht; discriminate|assumption].
Qed.

Lemma add_expense_clicked_keeps (click_time : datetime)
    (category amount_text description : string) (w : World) :
  P (session w) ->
  P (session (world_of (add_expense_clicked click_time category amount_text
                                            description w))).
Proof.
  intros H; unfold add_expense_clicked.
  destruct (Decimal_of_str _) as [d|e] eqn:Hd.
  - destruct (Decimal_le_int d 0); [exact H|].
    pose proof (add_expense_keeps click_time d description category w
                  (Decimal_of_str_cleaned_sign _ _ Hd) H) as Hadd.
    destruct (add_expense click_time d description category w)
      as [w' out|w' e]; [exact Hadd|].
    destruct (is_invalid_amount_error e); exact Hadd.
  - destruct (is_invalid_amount_error e); exact H.
Qed.

Lemma set_budget_keeps (click_time : datetime) (t : BudgetType)
    (text : string) (w : World) :
  budget_type (session w) = None ->
  P (session w) ->
  P (session (world_of (set_budget click_time t text w))).
Proof.
  intros Hnone H; unfold set_budget.
  destruct (Decimal_of_str _) as [d|e].
  - destruct (Decimal_le_int d 0) eqn:Hle; [exact H|].
    simpl; apply P_set_budget; assumption.
  - destruct (is_invalid_amount_error e); exact H.
Qed.

Lemma budget_tracker_keeps (now click_time : datetime) (click : BudgetClick)
    (w : World) :
  P (session w) ->
  P (session (world_of (budget_tracker now click_time click w))).
Proof.
  intros H; unfold budget_tracker.
  set (s := match budget_type (session w) with
            | Some _ => check_budget_reset now (session w)
            | None => session w
            end).
  assert (Hs : P s).
  { subst s; destruct (budget_type (session w));
      [apply check_budget_reset_keeps|]; exact H. }
  assert (Hpage : P (with_page (session w) settings_page)).
  { apply (P_frame (session w)); try reflexivity; exact H. }
  destruct click; try exact Hpage;
    destruct (budget_type s) eqn:Ht; try exact Hs;
    try (apply set_budget_keeps; assumption);
    destruct (remaining_budget s); try exact Hs;
    destruct (get_next_reset_date s); try exact Hs;
    try (apply add_expense_clicked_keeps; exact Hs).
  simpl; apply P_reset_budget; exact Hs.
Qed.

Lemma Decimal_fix_sign (d : Decimal) : d_sign (Decimal_fix d) = d_sign d.
Proof.
  unfold Decimal_fix.
  destruct (_ <? _); [reflexivity|].
  destruct (_ =? _); reflexivity.
Qed.

Lemma Decimal_mul_unsigned (a b : Decimal) :
  d_sign a = false -> d_sign b = false -> d_sign (Decimal_mul a b) = false.
Proof.
  intros Ha Hb; unfold Decimal_mul.
  rewrite Decimal_fix_sign; simpl; rewrite Ha, Hb; reflexivity.
Qed.

Lemma expense_calculator_keeps (click_time : datetime)
    (expense_type item_price quantity : string)
    (describe : Decimal -> Decimal -> string) (add_to_budget : bool)
    (w : World) :
  P (session w) ->
  P (session (world_of (expense_calculator click_time expense_type item_price
                                           quantity describe add_to_budget
                                           w))).
Proof.
  intros H; unfold expense_calculator.
  destruct (validate_decimal_input item_price) as [price|] eqn:Hp;
    [|exact H].
  destruct (validate_decimal_input quantity) as [qty|] eqn:Hq; [|exact H].
  destruct (_ || _); [exact H|].
  destruct add_to_budget; [|exact H].
  apply and_then_keeps; [exact H|].
  intros w1 H1; apply add_expense_keeps; [|exact H1].
  apply Decimal_mul_unsigned;
    eapply Decimal_of_str_cleaned_sign, validate_decimal_input_cleaned;
    eassumption.
Qed.

Lemma main_menu_keeps (settings_clicked : bool) (selected_currency : string)
    (goto : option Page) (w : World) :
  P (session w) ->
  P (session (world_of (main_menu settings_clicked selected_currency goto
                                  w))).
Proof.
  intros H; unfold main_menu.
  set (w' := if settings_clicked
             then set_session w (with_page (session w) settings_page)
             else w).
  assert (H' : P (session w')).
  { subst w'; destruct settings_clicked; [|exact H].
    apply (P_frame (session w)); try reflexivity; exact H. }
  apply and_then_keeps.
  - destruct (String.eqb _ _); [exact H'|].
    apply save_settings_keeps.
    apply (P_frame (session w')); try reflexivity; exact H'.
  - intros w1 H1; destruct goto; [|exact H1].
    apply (P_frame (session w1)); try reflexivity; exact H1.
Qed.

Lemma settings_keeps (selected_theme : string)
    (notifications critical_warning : bool) (w : World) :
  P (session w) ->
  P (session (world_of (settings selected_theme notifications
                                 critical_warning w))).
Proof.
  intros H; unfold settings.
  destruct (negb _).
  { apply save_settings_keeps.
    apply (P_frame (session w)); try reflexivity; exact H. }
  apply and_then_keeps.
  - destruct (Bool.eqb _ _); [exact H|].
    apply save_settings_keeps.
    apply (P_frame (session w)); try reflexivity; exact H.
  - intros w1 H1.
    destruct (notifications_enabled (session w1)); [|exact H1].
    destruct (Bool.eqb _ _); [exact H1|].
    apply save_settings_keeps.
    apply (P_frame (session w1)); try reflexivity; exact H1.
Qed.

Lemma run_script_keeps (now click_time : datetime) (i : Interaction)
    (w : World) :
  P (session w) ->
  P (session (world_of (run_script now click_time i w))).
Proof.
  intros H; unfold run_script.
  assert (Hpage : P (with_page (session w) main_menu_page)).
  { apply (P_frame (session w)); try reflexivity; exact H. }
  destruct i, (page (session w)); try exact H; try exact Hpage.
  - apply main_menu_keeps, H.
  - apply budget_tracker_keeps, H.
  - apply settings_keeps, H.
  - destruct (expense_history_page _ _ _ _) as [[|]|]; exact H.
  - apply expense_calculator_keeps, H.
Qed.

End Invariant.

(** X1.  Every run of the script keeps the budget consistent: the
    budget type, amount and start date are set together or not at all,
    and a set amount is above zero. *)
Theorem budget_consistent_kept :
  forall (now click_time : datetime) (i : Interaction) (w : World),
    budget_consistent (session w) ->
    budget_consistent (session (world_of (run_script now click_time i w))).
Proof.
  intros now click_time i w.
  apply (run_script_keeps budget_consistent); clear.
  - intros s s' Ht Ha Hd _ _; unfold budget_consistent.
    rewrite Ht, Ha, Hd; exact (fun H => H).
  - intros now start s Hs [(_ & _ & Hnone)|(t & a & d & Ht & Ha & _ & Hpos)];
      [congruence|].
    right; exists t, a, now; simpl; auto.
  - intros s t a d _ Hpos _; right; exists t, a, d; simpl; auto.
  - intros s _; left; simpl; auto.
  - intros s e _ _ H; exact H.
Qed.

Lemma budget_consistent_kept_witness :
  let w := mkWorld (mkSession budget_page "USD" "light" true true
                              None None None [] []) NoFile in
  let t := mkDatetime 2024 1 15 9 0 0 0 in
  budget_consistent (session w) /\
  budget_consistent
    (session (world_of (run_script t t (OnBudget (ClickSetBudget Monthly
                                                    "1,000.00")) w))) /\
  budget_amount
    (session (world_of (run_script t t (OnBudget (ClickSetBudget Monthly
                                                    "1,000.00")) w)))
  = Some (mkDecimal false 100000 (-2)).
Proof.
  intros w t.
  assert (H : budget_consistent (session w)) by (left; repeat split).
  split; [exact H|split; [|reflexivity]].
  apply (budget_consistent_kept t t _ w H).
Defined.

(** X2.  Every run of the script keeps the current-period list the most
    recent part of the history: each current expense is in the history,
    in the same order, after all older ones. *)
Theorem current_within_history_kept :
  forall (now click_time : datetime) (i : Interaction) (w : World),
    current_within_history (session w) ->
    current_within_history
      (session (world_of (run_script now click_time i w))).
Proof.
  intros now click_time i w.
  apply (run_script_keeps current_within_history); clear.
  - intros s s' _ _ _ He Hh; unfold current_within_history.
    rewrite He, Hh; exact (fun H => H).
  - intros now start s _ _; exists (expense_history s); simpl.
    rewrite app_nil_r; reflexivity.
  - intros s t a d _ _ H; exact H.
  - intros s _; exists (expense_history s); simpl.
    rewrite app_nil_r; reflexivity.
  - intros s e _ _ [older H]; exists older; simpl.
    rewrite H, app_assoc; reflexivity.
Qed.

Lemma current_within_history_kept_witness :
  let start := mkDatetime 2024 1 15 9 0 0 0 in
  let e0 := mkExpense (mkDatetime 2023 12 30 18 0 0 0)
                      (mkDecimal false 1200 (-2)) "" "Gas" "USD"
                      (Some Monthly) "2023-12-05 to 2024-01-05" in
  let w := mkWorld (mkSession budget_page "USD" "light" true true
                              (Some Monthly)
                              (Some (mkDecimal false 100000 (-2)))
                              (Some start) [] [e0]) NoFile in
  let t := mkDatetime 2024 1 16 12 0 0 0 in
  let w' := world_of (run_script t t (OnBudget (ClickAddExpense "Food"
                                                  "45.50" "lunch")) w) in
  current_within_history (session w) /\
  current_within_history (session w') /\
  List.length (expenses (session w')) = 1%nat /\
  List.length (expense_history (session w')) = 2%nat.
Proof.
  intros start e0 w t w'.
  assert (H : current_within_history (session w)) by (exists [e0]; reflexivity).
  split; [exact H|split; [|split; reflexivity]].
  apply (current_within_history_kept t t _ w H).
Defined.

(** X3.  Every run of the script keeps the ledger free of negative
    amounts: if no amount of the current list and of the history carries
    a minus sign before the run, none does after it. *)
Theorem amounts_unsigned_kept :
  forall (now click_time : datetime) (i : Interaction) (w : World),
    amounts_unsigned (session w) ->
    amounts_unsigned (session (world_of (run_script now click_time i w))).
Proof.
  intros now click_time i w.
  apply (run_script_keeps amounts_unsigned); clear.
  - intros s s' _ _ _ He Hh; unfold amounts_unsigned.
    rewrite He, Hh; exact (fun H => H).
  - intros now start s _ [_ H]; split; [constructor|exact H].
  - intros s t a d _ _ H; exact H.
  - intros s [_ H]; split; [constructor|exact H].
  - intros s e He _ [H1 H2]; split; simpl;
      apply Forall_app; split; try assumption; repeat constructor; exact He.
Qed.

Lemma amounts_unsigned_kept_witness :
  let start := mkDatetime 2024 1 15 9 0 0 0 in
  let w := mkWorld (mkSession calculator_page "USD" "light" true true
                              (Some Monthly)
                              (Some (mkDecimal false 100000 (-2)))
                              (Some start) [] []) NoFile in
  let t := mkDatetime 2024 1 16 12 0 0 0 in
  let w' := world_of (run_script t t
                        (OnCalculator "Food" "-2.50" "-4" (fun _ _ => "")
                                      true) w) in
  amounts_unsigned (session w) /\
  amounts_unsigned (session w') /\
  map e_amount (expense_history (session w')) = [mkDecimal false 1000 (-2)].
Proof.
  intros start w t w'.
  assert (H : amounts_unsigned (session w)) by (split; constructor).
  split; [exact H|split; [|reflexivity]].
  apply (amounts_unsigned_kept t t _ w H).
Defined.

(** * The rollover *)

Section Rollover.

Lemma reset_not_needed_at_start (t : option BudgetType) (now : datetime) :
  reset_needed t now now = false.
Proof.
  destruct t as [[| | |]|]; unfold reset_needed; try reflexivity.
  - unfold date_gt; rewrite lex_compare_refl; reflexivity.
  - unfold datetime_sub, timedelta_new; rewrite !Z.sub_diag; reflexivity.
  - rewrite !Z.ltb_irrefl, Z.eqb_refl; reflexivity.
  - apply Z.ltb_irrefl.
Qed.

Lemma instant_us_ordinal_lt (a b : datetime) :
  valid_datetime a = true -> valid_datetime b = true ->
  toordinal a < toordinal b -> instant_us a < instant_us b.
Proof.
  intros Va Vb H.
  unfold valid_datetime in Va, Vb; apply andb_prop in Va, Vb.
  destruct Va as [_ Ta], Vb as [_ Tb].
  apply valid_time_bounds in Ta, Tb.
  unfold instant_us, seconds_of_day; lia.
Qed.

Lemma instant_us_ordinal_le (a b : datetime) :
  valid_datetime a = true -> valid_datetime b = true ->
  instant_us a + 86400 * 1000000 <= instant_us b ->
  toordinal a < toordinal b.
Proof.
  intros Va Vb H.
  unfold valid_datetime in Va, Vb; apply andb_prop in Va, Vb.
  destruct Va as [_ Ta], Vb as [_ Tb].
  apply valid_time_bounds in Ta, Tb.
  unfold instant_us, seconds_of_day in H; lia.
Qed.

(** A later calendar month starts on a later day. *)
Lemma month_later_ordinal_lt (a b : datetime) :
  valid_datetime a = true -> valid_datetime b = true ->
  year a < year b \/ (year b = year a /\ month a < month b) ->
  toordinal a < toordinal b.
Proof.
  intros Va Vb H; apply valid_datetime_date in Va, Vb.
  unfold toordinal; destruct H as [H|[Hy Hm]].
  - apply ymd2ord_year_lt; assumption.
  - rewrite Hy in *; apply ymd2ord_month_lt; assumption.
Qed.

Lemma reset_needed_cases (t : BudgetType) (start now : datetime) :
  valid_datetime start = true -> valid_datetime now = true ->
  reset_needed (Some t) start now = true ->
  toordinal start < toordinal now.
Proof.
  intros Vs Vn H; destruct t; unfold reset_needed in H.
  - apply date_gt_toordinal; assumption.
  - rewrite days_datetime_sub in H; apply Z.leb_le in H.
    apply instant_us_ordinal_le; try assumption.
    Z.div_mod_to_equations; lia.
  - apply month_later_ordinal_lt; try assumption.
    apply orb_true_iff in H; destruct H as [H|H].
    + left; apply Z.ltb_lt, H.
    + apply andb_true_iff in H; destruct H as [Hy Hm].
      right; split; [apply Z.eqb_eq, Hy|apply Z.ltb_lt, Hm].
  - apply month_later_ordinal_lt; try assumption.
    left; apply Z.ltb_lt, H.
Qed.

End Rollover.

(** X4.  The rollover check is idempotent for one reading of the clock:
    once [check_budget_reset] has run at [now], running it again at the
    same [now] changes nothing, for every budget type. *)
Theorem check_budget_reset_idempotent :
  forall (now : datetime) (s : SessionState),
    check_budget_reset now (check_budget_reset now s)
    = check_budget_reset now s.
Proof.
  intros now s; unfold check_budget_reset.
  destruct (budget_start_date s) as [start|] eqn:Hs.
  - destruct (reset_needed (budget_type s) start now) eqn:Hr.
    + simpl; rewrite reset_not_needed_at_start; reflexivity.
    + rewrite Hs, Hr; reflexivity.
  - rewrite Hs; reflexivity.
Qed.

(** X5.  A rollover only ever moves the start of the period forward: for
    valid date-times, whenever the rollover test holds, of whatever
    budget type, now lies on a later calendar day than the start, hence
    at a later instant. *)
Theorem rollover_moves_start_forward :
  forall (t : BudgetType) (start now : datetime),
    valid_datetime start = true ->
    valid_datetime now = true ->
    reset_needed (Some t) start now = true ->
    toordinal start < toordinal now /\
    instant_us start < instant_us now /\
    date_gt now start = true.
Proof.
  intros t start now Vs Vn H.
  pose proof (reset_needed_cases t start now Vs Vn H) as Hord.
  split; [exact Hord|split].
  - apply instant_us_ordinal_lt; assumption.
  - apply date_gt_toordinal; assumption.
Qed.

Lemma rollover_moves_start_forward_witness :
  let start := mkDatetime 2024 1 31 23 30 0 0 in
  let now := mkDatetime 2024 2 1 0 15 0 0 in
  reset_needed (Some Monthly) start now = true /\
  instant_us start < instant_us now.
Proof.
  intros start now; split; [reflexivity|].
  apply (rollover_moves_start_forward Monthly start now);
    reflexivity.
Defined.

(** X6.  The four rollover policies are nested on valid date-times:
    whenever a yearly budget rolls over, a monthly one with the same
    start does; whenever a monthly or a weekly one rolls over, a daily
    one does. *)
Theorem rollover_policies_nested :
  forall start now : datetime,
    valid_datetime start = true ->
    valid_datetime now = true ->
    (reset_needed (Some Yearly) start now = true ->
     reset_needed (Some Monthly) start now = true) /\
    (reset_needed (Some Monthly) start now = true ->
     reset_needed (Some Daily) start now = true) /\
    (reset_needed (Some Weekly) start now = true ->
     reset_needed (Some Daily) start now = true).
Proof.
  intros start now Vs Vn; repeat split; intros H.
  - unfold reset_needed in *; rewrite H; reflexivity.
  - apply (date_gt_toordinal now start Vn Vs).
    apply (reset_needed_cases Monthly); assumption.
  - apply (date_gt_toordinal now start Vn Vs).
    apply (reset_needed_cases Weekly); assumption.
Qed.

Lemma rollover_policies_nested_witness :
  let start := mkDatetime 2023 12 31 23 0 0 0 in
  let now := mkDatetime 2024 1 1 0 30 0 0 in
  reset_needed (Some Yearly) start now = true /\
  reset_needed (Some Monthly) start now = true /\
  reset_needed (Some Daily) start now = true /\
  reset_needed (Some Weekly) start now = false.
Proof.
  intros start now.
  destruct (rollover_policies_nested start now eq_refl eq_refl)
    as (Hym & Hmd & _).
  assert (Hy : reset_needed (Some Yearly) start now = true) by reflexivity.
  split; [exact Hy|split; [exact (Hym Hy)|split]].
  - exact (Hmd (Hym Hy)).
  - reflexivity.
Defined.

(** * What the amount parser accepts *)

Section ParserShape.















Lemma length_zero_empty (s : string) :
  String.length s = 0%nat -> s = EmptyString.
Proof. destruct s; [reflexivity|discriminate]. Qed.


End ParserShape.


(** Thousands separators and currency signs are ignored; a second
    decimal point or a text without a digit is refused. *)
Lemma validate_decimal_input_examples :
  validate_decimal_input "$1,234.50" = Some (mkDecimal false 123450 (-2)) /\
  validate_decimal_input "12 apples" = Some (mkDecimal false 12 0) /\
  validate_decimal_input "1.2.3" = None /\
  validate_decimal_input "." = None /\
  validate_decimal_input "abc" = None /\
  validate_decimal_input "1e5" = Some (mkDecimal false 15 0).
Proof. repeat split; reflexivity. Qed.

(** * Saving and loading the settings *)

Section JsonRoundTrip.

(** Induction on Python objects that reaches inside lists and
    dictionaries. *)
Variable P : pyobj -> Prop.
Hypothesis P_none : P PyNone.
Hypothesis P_bool : forall b, P (PyBool b).
Hypothesis P_int : forall n, P (PyInt n).
Hypothesis P_str : forall s, P (PyStr s).
Hypothesis P_decimal : forall d, P (PyDecimal d).
Hypothesis P_datetime : forall t, P (PyDatetime t).
Hypothesis P_list : forall l, Forall P l -> P (PyList l).
Hypothesis P_dict :
  forall kv, Forall (fun p => P (snd p)) kv -> P (PyDict kv).

Fixpoint pyobj_nested_ind (o : pyobj) : P o :=
  match o with
  | PyNone => P_none
  | PyBool b => P_bool b
  | PyInt n => P_int n
  | PyStr s => P_str s
  | PyDecimal d => P_decimal d
  | PyDatetime t => P_datetime t
  | PyList l =>
      P_list l
        ((fix go (l : list pyobj) : Forall P l :=
            match l with
            | [] => Forall_nil P
            | x :: r => Forall_cons x (pyobj_nested_ind x) (go r)
            end) l)
  | PyDict kv =>
      P_dict kv
        ((fix go (kv : list (string * pyobj))
            : Forall (fun p => P (snd p)) kv :=
            match kv with
            | [] => Forall_nil _
            | p :: r => Forall_cons p (pyobj_nested_ind (snd p)) (go r)
            end) kv)
  end.

End JsonRoundTrip.

(** Whatever [json.dump] accepts, [json.load] gives back unchanged. *)
Lemma json_decode_encode (o : pyobj) :
  forall j : json, json_encode o = Ok j -> json_decode j = o.
Proof.
  induction o as [| | | | | |l IH|kv IH] using pyobj_nested_ind;
    intros j H; simpl in H; try (injection H as <-; reflexivity);
    try discriminate H.
  - match type of H with
    | match ?enc l with _ => _ end = _ =>
        assert (Hl : forall js, enc l = Ok js -> map json_decode js = l)
    end.
    { clear H; induction IH as [|x r Hx _ IHr]; intros js Hjs; simpl in Hjs.
      - injection Hjs as <-; reflexivity.
      - destruct (json_encode x) as [jx|] eqn:Ex; [|discriminate].
        match type of Hjs with
        | match ?e with _ => _ end = _ => destruct e as [jr|] eqn:Er
        end; [|discriminate].
        injection Hjs as <-; simpl.
        rewrite (Hx jx eq_refl), (IHr jr eq_refl); reflexivity. }
    match type of H with
    | match ?e with _ => _ end = _ => destruct e as [js|] eqn:E
    end; [|discriminate].
    injection H as <-; simpl; rewrite (Hl js eq_refl); reflexivity.
  - match type of H with
    | match ?enc kv with _ => _ end = _ =>
        assert (Hl : forall js,
                   enc kv = Ok js ->
                   map (fun p => (fst p, json_decode (snd p))) js = kv)
    end.
    { clear H; induction IH as [|[k x] r Hx _ IHr]; intros js Hjs;
        simpl in Hjs.
      - injection Hjs as <-; reflexivity.
      - destruct (json_encode x) as [jx|] eqn:Ex; [|discriminate].
        match type of Hjs with
        | match ?e with _ => _ end = _ => destruct e as [jr|] eqn:Er
        end; [|discriminate].
        injection Hjs as <-; simpl in *.
        rewrite (Hx jx Ex), (IHr jr eq_refl); reflexivity. }
    match type of H with
    | match ?e with _ => _ end = _ => destruct e as [js|] eqn:E
    end; [|discriminate].
    injection H as <-; simpl; rewrite (Hl js eq_refl); reflexivity.
Qed.

Section SettingsFile.

Lemma settings_dict_empty_history (s : SessionState) :
  expense_history s = [] ->
  settings_dict s
  = Ok (PyDict [("currency", PyStr (currency s));
                ("theme", PyStr (theme s));
                ("notifications_enabled", PyBool (notifications_enabled s));
                ("critical_warning_enabled",
                 PyBool (critical_warning_enabled s));
                ("expense_history", PyList [])]).
Proof. intros H; unfold settings_dict; rewrite H; reflexivity. Qed.

Lemma settings_dict_frame (s s' : SessionState) :
  currency s' = currency s -> theme s' = theme s ->
  notifications_enabled s' = notifications_enabled s ->
  critical_warning_enabled s' = critical_warning_enabled s ->
  expense_history s' = expense_history s ->
  settings_dict s' = settings_dict s.
Proof.
  intros H1 H2 H3 H4 H5; unfold settings_dict.
  rewrite H1, H2, H3, H4, H5; reflexivity.
Qed.

Lemma save_settings_in_sync (w : World) :
  expense_history (session w) = [] ->
  settings_in_sync (world_of (save_settings w)) /\
  exists j : json,
    save_settings w = Done (mkWorld (session w) (JsonText j)) [].
Proof.
  intros H; unfold save_settings, settings_in_sync.
  rewrite (settings_dict_empty_history _ H).
  destruct (json_encode _) as [j|e] eqn:E; [|discriminate E].
  split; [|exists j; reflexivity].
  simpl; rewrite (settings_dict_empty_history _ H).
  rewrite (json_decode_encode _ j E); reflexivity.
Qed.

Lemma in_sync_frame (w w' : World) :
  settings_file w' = settings_file w ->
  currency (session w') = currency (session w) ->
  theme (session w') = theme (session w) ->
  notifications_enabled (session w') = notifications_enabled (session w) ->
  critical_warning_enabled (session w')
  = critical_warning_enabled (session w) ->
  expense_history (session w') = expense_history (session w) ->
  settings_in_sync w -> settings_in_sync w'.
Proof.
  unfold settings_in_sync; intros Hf H1 H2 H3 H4 H5 H.
  rewrite Hf, (settings_dict_frame _ _ H1 H2 H3 H4 H5); exact H.
Qed.

Lemma add_expense_in_sync (now : datetime) (amount : Decimal)
    (description category : string) (w : World) :
  settings_in_sync w ->
  expense_history
    (session (world_of (add_expense now amount description category w)))
  = [] ->
  settings_in_sync (world_of (add_expense now amount description category w)).
Proof.
  intros H; unfold add_expense.
  destruct (budget_start_date (session w)); [|intros _; exact H].
  destruct (get_next_reset_date (session w)); [|intros _; exact H].
  destruct (budget_type (session w)); [|intros _; exact H].
  rewrite save_settings_session; simpl; intros Hnil.
  destruct (app_cons_not_nil _ _ _ (eq_sym Hnil)).
Qed.

Lemma add_expense_clicked_in_sync (click_time : datetime)
    (category amount_text description : string) (w : World) :
  settings_in_sync w ->
  expense_history
    (session (world_of (add_expense_clicked click_time category amount_text
                                            description w))) = [] ->
  settings_in_sync (world_of (add_expense_clicked click_time category
                                                  amount_text description w)).
Proof.
  intros H; unfold add_expense_clicked.
  destruct (Decimal_of_str _) as [d|e].
  - destruct (Decimal_le_int d 0); [intros _; exact H|].
    pose proof (add_expense_in_sync click_time d description category w H)
      as Hadd.
    destruct (add_expense click_time d description category w)
      as [w' out|w' e]; [exact Hadd|].
    destruct (is_invalid_amount_error e); exact Hadd.
  - destruct (is_invalid_amount_error e); intros _; exact H.
Qed.

Lemma check_budget_reset_persisted (now : datetime) (s : SessionState) :
  currency (check_budget_reset now s) = currency s /\
  theme (check_budget_reset now s) = theme s /\
  notifications_enabled (check_budget_reset now s)
  = notifications_enabled s /\
  critical_warning_enabled (check_budget_reset now s)
  = critical_warning_enabled s.
Proof.
  unfold check_budget_reset.
  destruct (budget_start_date s); [|repeat split].
  destruct (reset_needed _ _ _); repeat split.
Qed.

Lemma budget_tracker_in_sync (now click_time : datetime)
    (click : BudgetClick) (w : World) :
  settings_in_sync w ->
  expense_history
    (session (world_of (budget_tracker now click_time click w))) = [] ->
  settings_in_sync (world_of (budget_tracker now click_time click w)).
Proof.
  intros H; unfold budget_tracker.
  set (s := match budget_type (session w) with
            | Some _ => check_budget_reset now (session w)
            | None => session w
            end).
  assert (Hs : settings_in_sync (set_session w s)).
  { apply (in_sync_frame w); try reflexivity; try exact H; subst s; simpl;
      destruct (budget_type (session w)); try reflexivity;
      try apply check_budget_reset_history;
      apply (check_budget_reset_persisted now (session w)). }
  assert (Hany : forall s' : SessionState,
             currency s' = currency s -> theme s' = theme s ->
             notifications_enabled s' = notifications_enabled s ->
             critical_warning_enabled s' = critical_warning_enabled s ->
             expense_history s' = expense_history s ->
             settings_in_sync (set_session w s')).
  { intros s' H1 H2 H3 H4 H5.
    apply (in_sync_frame (set_session w s)); try assumption; reflexivity. }
  destruct click.
  - destruct (budget_type s); [|intros _; exact Hs].
    destruct (remaining_budget s); [|intros _; exact Hs].
    destruct (get_next_reset_date s); intros _; exact Hs.
  - intros _; apply (in_sync_frame w); try reflexivity; exact H.
  - destruct (budget_type s).
    + destruct (remaining_budget s); [|intros _; exact Hs].
      destruct (get_next_reset_date s); intros _; exact Hs.
    + unfold set_budget.
      destruct (Decimal_of_str _) as [d|e].
      * destruct (Decimal_le_int d 0); intros _; [exact Hs|].
        apply Hany; reflexivity.
      * destruct (is_invalid_amount_error e); intros _; exact Hs.
  - destruct (budget_type s); [|intros _; exact Hs].
    destruct (remaining_budget s); [|intros _; exact Hs].
    destruct (get_next_reset_date s); [|intros _; exact Hs].
    apply add_expense_clicked_in_sync, Hs.
  - destruct (budget_type s); [|intros _; exact Hs].
    destruct (remaining_budget s); [|intros _; exact Hs].
    destruct (get_next_reset_date s); intros _; [|exact Hs].
    apply Hany; reflexivity.
Qed.

Lemma expense_calculator_in_sync (click_time : datetime)
    (expense_type item_price quantity : string)
    (describe : Decimal -> Decimal -> string) (add_to_budget : bool)
    (w : World) :
  settings_in_sync w ->
  expense_history
    (session (world_of (expense_calculator click_time expense_type
                          item_price quantity describe add_to_budget w)))
  = [] ->
  settings_in_sync (world_of (expense_calculator click_time expense_type
                                item_price quantity describe add_to_budget
                                w)).
Proof.
  intros H; unfold expense_calculator.
  destruct (validate_decimal_input item_price) as [price|];
    [|intros _; exact H].
  destruct (validate_decimal_input quantity) as [qty|];
    [|intros _; exact H].
  destruct (_ || _); [intros _; exact H|].
  destruct add_to_budget; [|intros _; exact H].
  unfold and_then.
  pose proof (add_expense_in_sync click_time (Decimal_mul price qty)
                (describe qty price) expense_type w H) as Hadd.
  destruct (add_expense _ _ _ _ w); exact Hadd.
Qed.

Lemma main_menu_in_sync (settings_clicked : bool)
    (selected_currency : string) (goto : option Page) (w : World) :
  settings_in_sync w ->
  expense_history
    (session (world_of (main_menu settings_clicked selected_currency goto
                                  w))) = [] ->
  settings_in_sync (world_of (main_menu settings_clicked selected_currency
                                        goto w)).
Proof.
  intros H; unfold main_menu.
  set (w' := if settings_clicked
             then set_session w (with_page (session w) settings_page)
             else w).
  assert (H' : settings_in_sync w').
  { subst w'; destruct settings_clicked; [|exact H].
    apply (in_sync_frame w); try reflexivity; exact H. }
  assert (Hh : expense_history (session w') = expense_history (session w)).
  { subst w'; destruct settings_clicked; reflexivity. }
  destruct (String.eqb _ _).
  - destruct goto; simpl; intros _; [|exact H'].
    apply (in_sync_frame w'); try reflexivity; exact H'.
  - set (w2 := set_session w' (with_currency (session w') selected_currency)).
    pose proof (save_settings_session w2) as Hsess.
    pose proof (save_settings_in_sync w2) as Hsave.
    unfold and_then.
    destruct (save_settings w2) as [w3 out|w3 e]; simpl in *.
    + destruct goto; simpl; intros Hnil; rewrite Hsess in Hnil;
        simpl in Hnil; destruct (Hsave Hnil) as [Hsync _]; [|exact Hsync].
      apply (in_sync_frame w3); try reflexivity; exact Hsync.
    + intros Hnil; rewrite Hsess in Hnil; simpl in Hnil.
      destruct (Hsave Hnil) as [Hsync _]; exact Hsync.
Qed.

Lemma world_of_and_then_done (w : World) (out : list Notice)
    (k : World -> outcome) :
  world_of (and_then (Done w out) k) = world_of (k w).
Proof. unfold and_then; destruct (k w); reflexivity. Qed.

Lemma settings_page_in_sync (selected_theme : string)
    (notifications critical_warning : bool) (w : World) :
  settings_in_sync w ->
  expense_history
    (session (world_of (settings selected_theme notifications
                                 critical_warning w))) = [] ->
  settings_in_sync (world_of (settings selected_theme notifications
                                       critical_warning w)).
Proof.
  intros H; unfold settings.
  destruct (negb _).
  { intros Hnil; rewrite save_settings_session in Hnil; simpl in Hnil.
    apply save_settings_in_sync; exact Hnil. }
  set (k := fun w1 : World =>
              if notifications_enabled (session w1)
              then
                if Bool.eqb critical_warning
                            (critical_warning_enabled (session w1))
                then Done w1 []
                else save_settings
                       (set_session w1
                          (with_critical_warning (session w1)
                                                 critical_warning))
              else Done w1 []).
  assert (Hk_hist : forall w1,
             expense_history (session (world_of (k w1)))
             = expense_history (session w1)).
  { intros w1; subst k; cbv beta.
    destruct (notifications_enabled (session w1)); [|reflexivity].
    destruct (Bool.eqb _ _); [reflexivity|].
    rewrite save_settings_session; reflexivity. }
  assert (Hk : forall w1,
             settings_in_sync w1 ->
             expense_history (session w1) = [] ->
             settings_in_sync (world_of (k w1))).
  { intros w1 H1 Hn; subst k; cbv beta.
    destruct (notifications_enabled (session w1)); [|exact H1].
    destruct (Bool.eqb _ _); [exact H1|].
    apply save_settings_in_sync; exact Hn. }
  destruct (Bool.eqb _ _).
  - rewrite world_of_and_then_done, Hk_hist.
    intros Hnil; apply Hk; assumption.
  - set (w2 := set_session w (with_notifications (session w) notifications)).
    pose proof (save_settings_session w2) as Hsess.
    pose proof (save_settings_in_sync w2) as Hsave.
    destruct (save_settings w2) as [w3 out|w3 e]; simpl in Hsess, Hsave.
    + rewrite world_of_and_then_done, Hk_hist.
      intros Hnil; rewrite Hsess in Hnil.
      apply Hk; [apply Hsave; exact Hnil|rewrite Hsess; exact Hnil].
    + simpl; intros Hnil; rewrite Hsess in Hnil.
      apply Hsave; exact Hnil.
Qed.

End SettingsFile.

(** X8.  With an empty expense history [save_settings] succeeds without
    a notice, and [load_settings] then returns exactly the dictionary
    that was saved: the session's currency, theme and the two
    notification flags, with an empty history that start-up restores as
    such. *)
Theorem save_then_load_settings :
  forall w : World,
    expense_history (session w) = [] ->
    exists j : json,
      save_settings w = Done (mkWorld (session w) (JsonText j)) [] /\
      load_settings (JsonText j)
      = PyDict [("currency", PyStr (currency (session w)));
                ("theme", PyStr (theme (session w)));
                ("notifications_enabled",
                 PyBool (notifications_enabled (session w)));
                ("critical_warning_enabled",
                 PyBool (critical_warning_enabled (session w)));
                ("expense_history", PyList [])] /\
      restored_history (load_settings (JsonText j)) = Ok [].
Proof.
  intros w H.
  destruct (save_settings_in_sync w H) as [Hsync [j Hj]].
  exists j; split; [exact Hj|].
  unfold settings_in_sync in Hsync; rewrite Hj in Hsync; simpl in Hsync.
  rewrite (settings_dict_empty_history _ H) in Hsync.
  injection Hsync as Hload.
  simpl; rewrite <- Hload; split; reflexivity.
Qed.

Lemma save_then_load_settings_witness :
  let w := mkWorld (mkSession settings_page "EUR" "dark" true false
                              None None None [] []) Garbled in
  exists j : json,
    save_settings w = Done (mkWorld (session w) (JsonText j)) [] /\
    dict_get "currency"
      match load_settings (JsonText j) with
      | PyDict items => items
      | _ => []
      end = Ok (PyStr "EUR").
Proof.
  intros w.
  destruct (save_then_load_settings w eq_refl) as (j & Hsave & Hload & _).
  exists j; split; [exact Hsave|].
  rewrite Hload; reflexivity.
Defined.

(** X9.  As long as no expense has been recorded, the settings file
    follows the session: if the file holds the session's settings
    before a run of the script (a missing file standing for the
    defaults) and the history is still empty after it, the file holds
    the session's settings after it, whatever was changed. *)
Theorem settings_file_follows_session :
  forall (now click_time : datetime) (i : Interaction) (w : World),
    settings_in_sync w ->
    expense_history (session (world_of (run_script now click_time i w)))
    = [] ->
    settings_in_sync (world_of (run_script now click_time i w)).
Proof.
  intros now click_time i w H; unfold run_script.
  assert (Hpage : settings_in_sync
                    (set_session w (with_page (session w) main_menu_page))).
  { apply (in_sync_frame w); try reflexivity; exact H. }
  destruct i, (page (session w)); try (intros _; exact H);
    try (intros _; exact Hpage).
  - apply main_menu_in_sync, H.
  - apply budget_tracker_in_sync, H.
  - apply settings_page_in_sync, H.
  - destruct (expense_history_page _ _ _ _) as [[|]|]; intros _; exact H.
  - apply expense_calculator_in_sync, H.
Qed.

Lemma settings_file_follows_session_witness :
  let w := mkWorld (mkSession main_menu_page "USD" "light" true true
                              None None None [] []) NoFile in
  let t := mkDatetime 2024 1 15 9 0 0 0 in
  let w' := world_of (run_script t t (OnMainMenu false "JPY" (Some budget_page))
                                 w) in
  settings_in_sync w /\
  settings_in_sync w' /\
  currency (session w') = "JPY" /\
  page (session w') = budget_page.
Proof.
  intros w t w'.
  assert (H : settings_in_sync w) by reflexivity.
  split; [exact H|split; [|split; reflexivity]].
  apply (settings_file_follows_session t t _ w H); reflexivity.
Defined.

(** * Day numbers and dates *)

Lemma days_before_year_decomp (a b c e : Z) :
  0 <= b < 4 -> 0 <= c < 25 -> 0 <= e < 4 ->
  days_before_year (400 * a + 100 * b + 4 * c + e + 1)
  = a * 146097 + b * 36524 + c * 1461 + e * 365.
Proof.
  intros Hb Hc He; unfold days_before_year.
  replace (400 * a + 100 * b + 4 * c + e + 1 - 1)
    with (400 * a + 100 * b + 4 * c + e) by lia.
  Z.div_mod_to_equations; lia.
Qed.

Lemma is_leap_decomp (a b c e : Z) :
  0 <= b < 4 -> 0 <= c < 25 -> 0 <= e < 4 ->
  is_leap (400 * a + 100 * b + 4 * c + e + 1)
  = (e =? 3) && (negb (c =? 24) || (b =? 3)).
Proof.
  intros Hb Hc He; unfold is_leap.
  set (y := 400 * a + 100 * b + 4 * c + e + 1).
  assert (H4 : y mod 4 = (e + 1) mod 4).
  { subst y. Z.div_mod_to_equations; lia. }
  assert (H100 : y mod 100 = (4 * c + e + 1) mod 100).
  { subst y. Z.div_mod_to_equations; lia. }
  assert (H400 : y mod 400 = (100 * b + 4 * c + e + 1) mod 400).
  { subst y. Z.div_mod_to_equations; lia. }
  rewrite H4, H100, H400.
  destruct (Z.eqb_spec e 3), (Z.eqb_spec c 24), (Z.eqb_spec b 3);
    destruct (Z.eqb_spec ((e + 1) mod 4) 0),
      (Z.eqb_spec ((4 * c + e + 1) mod 100) 0),
      (Z.eqb_spec ((100 * b + 4 * c + e + 1) mod 400) 0);
    cbn [andb orb negb]; try reflexivity; exfalso;
    Z.div_mod_to_equations; lia.
Qed.

Lemma ord2ymd_unfold (n : Z) :
  ord2ymd n
  = let n0 := n - 1 in
    let n400 := n0 / 146097 in
    let r400 := n0 mod 146097 in
    let n100 := r400 / 36524 in
    let r100 := r400 mod 36524 in
    let n4 := r100 / 1461 in
    let r4 := r100 mod 1461 in
    let n1 := r4 / 365 in
    let r1 := r4 mod 365 in
    let y := n400 * 400 + 1 + n100 * 100 + n4 * 4 + n1 in
    if (n1 =? 4) || (n100 =? 4) then (y - 1, 12, 31)
    else
      let '(m, d) :=
        month_day_of_year ((n1 =? 3) && (negb (n4 =? 24) || (n100 =? 3))) r1
      in (y, m, d).
Proof.
  unfold ord2ymd, month_day_of_year, DI400Y, DI100Y, DI4Y; cbv zeta.
  destruct (_ || _); [reflexivity|].
  destruct (_ <? _); reflexivity.
Qed.

Ltac split_day d :=
  let H := fresh "Hd" in
  assert (H : d = 1 \/ d = 2 \/ d = 3 \/ d = 4 \/ d = 5 \/ d = 6 \/ d = 7 \/ d = 8 \/ d = 9 \/ d = 10 \/ d = 11 \/ d = 12 \/ d = 13 \/ d = 14 \/ d = 15 \/ d = 16 \/ d = 17 \/ d = 18 \/ d = 19 \/ d = 20 \/ d = 21 \/ d = 22 \/ d = 23 \/ d = 24 \/ d = 25 \/ d = 26 \/ d = 27 \/ d = 28 \/ d = 29 \/ d = 30 \/ d = 31) by lia;
  repeat (destruct H as [H|H]); subst d.

Lemma month_day_of_year_spec (leapyear : bool) (m d : Z) :
  1 <= m <= 12 ->
  1 <= d <= (if (m =? 2) && leapyear then 29 else DAYS_IN_MONTH m) ->
  month_day_of_year leapyear
    (DAYS_BEFORE_MONTH m + b2z ((2 <? m) && leapyear) + d - 1)
  = (m, d).
Proof.
  intros Hm Hd.
  split_month m; destruct leapyear; cbn -[Z.le] in Hd; split_day d;
    first [reflexivity | exfalso; lia].
Qed.

Lemma last_day_of_year (y m d : Z) :
  1 <= m <= 12 -> 1 <= d <= days_in_month y m ->
  days_before_month y m + d = 365 + b2z (is_leap y) ->
  m = 12 /\ d = 31.
Proof.
  intros Hm Hd; unfold days_before_month, days_in_month in *.
  split_month m; destruct (is_leap y); cbn -[Z.add Z.le] in *; lia.
Qed.

Lemma divmod_unique (n k q r : Z) :
  n = q * k + r -> 0 <= r < k -> n / k = q /\ n mod k = r.
Proof.
  intros -> Hr; split.
  - symmetry; apply (Z.div_unique _ k q r); lia.
  - symmetry; apply (Z.mod_unique _ k q r); lia.
Qed.

Lemma ord2ymd_core (a b c e doy : Z) :
  0 <= b < 4 -> 0 <= c < 25 -> 0 <= e < 4 ->
  let L := (e =? 3) && (negb (c =? 24) || (b =? 3)) in
  1 <= doy <= 365 + b2z L ->
  ord2ymd (a * 146097 + b * 36524 + c * 1461 + e * 365 + doy)
  = if doy =? 366
    then (400 * a + 100 * b + 4 * c + e + 1, 12, 31)
    else
      let '(m, d) := month_day_of_year L (doy - 1) in
      (400 * a + 100 * b + 4 * c + e + 1, m, d).
Proof.
  intros Hb Hc He L Hdoy.
  rewrite ord2ymd_unfold; cbv zeta.
  set (n0 := a * 146097 + b * 36524 + c * 1461 + e * 365 + doy - 1).
  destruct (Z.eqb_spec doy 366) as [H366|H366].
  - (* the last day of a leap year *)
    assert (HL : L = true).
    { destruct L; [reflexivity|simpl in Hdoy; lia]. }
    subst L; apply andb_prop in HL; destruct HL as [He3 Hcb].
    apply Z.eqb_eq in He3.
    destruct (Z.eqb_spec c 24) as [Hc24|Hc24].
    + (* of a year divisible by 400 *)
      simpl in Hcb; apply Z.eqb_eq in Hcb.
      destruct (divmod_unique n0 146097 a 146096) as [E1 E2];
        [subst n0; lia|lia|].
      rewrite E1, E2.
      change (146096 / 36524) with 4.
      rewrite orb_true_r; f_equal; f_equal; Z.div_mod_to_equations; lia.
    + destruct (divmod_unique n0 146097 a
                  (b * 36524 + c * 1461 + 1460)) as [E1 E2];
        [subst n0; lia|lia|].
      rewrite E1, E2.
      destruct (divmod_unique (b * 36524 + c * 1461 + 1460) 36524 b
                  (c * 1461 + 1460)) as [E3 E4]; [lia|lia|].
      rewrite E3, E4.
      destruct (divmod_unique (c * 1461 + 1460) 1461 c 1460) as [E5 E6];
        [lia|lia|].
      rewrite E5, E6.
      change (1460 / 365) with 4.
      rewrite Z.eqb_refl; cbn [orb]; f_equal; f_equal;
        Z.div_mod_to_equations; lia.
  - assert (Hr1 : 0 <= doy - 1 < 365).
    { destruct L; simpl in Hdoy; lia. }
    destruct (divmod_unique n0 146097 a
                (b * 36524 + c * 1461 + e * 365 + (doy - 1))) as [E1 E2];
      [subst n0; lia| |].
    { destruct L eqn:HL; simpl in Hdoy; [|lia].
      subst L; apply andb_prop in HL; destruct HL as [He3 Hcb].
      apply Z.eqb_eq in He3.
      destruct (Z.eqb_spec c 24) as [Hc24|Hc24]; [|lia].
      simpl in Hcb; apply Z.eqb_eq in Hcb; lia. }
    rewrite E1, E2.
    destruct (divmod_unique (b * 36524 + c * 1461 + e * 365 + (doy - 1))
                36524 b (c * 1461 + e * 365 + (doy - 1))) as [E3 E4];
      [lia|lia|].
    rewrite E3, E4.
    destruct (divmod_unique (c * 1461 + e * 365 + (doy - 1)) 1461 c
                (e * 365 + (doy - 1))) as [E5 E6]; [lia|lia|].
    rewrite E5, E6.
    destruct (divmod_unique (e * 365 + (doy - 1)) 365 e (doy - 1))
      as [E7 E8]; [lia|lia|].
    rewrite E7, E8.
    destruct (Z.eqb_spec e 4); [lia|].
    destruct (Z.eqb_spec b 4); [lia|].
    cbn [orb]; fold L.
    destruct (month_day_of_year L (doy - 1)) as [m0 d0].
    f_equal; f_equal; lia.
Qed.

Lemma ord2ymd_ymd2ord (y m d : Z) :
  valid_date y m d = true -> ord2ymd (ymd2ord y m d) = (y, m, d).
Proof.
  intros V; apply valid_date_bounds in V; destruct V as (Hy & Hm & Hd).
  set (a := (y - 1) / 400).
  set (b := (y - 1) mod 400 / 100).
  set (c := (y - 1) mod 100 / 4).
  set (e := (y - 1) mod 4).
  assert (Hb : 0 <= b < 4) by (subst b; Z.div_mod_to_equations; lia).
  assert (Hc : 0 <= c < 25) by (subst c; Z.div_mod_to_equations; lia).
  assert (He : 0 <= e < 4) by (subst e; Z.div_mod_to_equations; lia).
  assert (Hyd : y = 400 * a + 100 * b + 4 * c + e + 1)
    by (subst a b c e; Z.div_mod_to_equations; lia).
  clearbody a b c e.
  pose proof (day_of_year_bounds y m d Hm Hd) as Hdoy.
  pose proof (last_day_of_year y m d Hm Hd) as Hlast.
  pose proof (is_leap_decomp a b c e Hb Hc He) as Hleap.
  rewrite <- Hyd in Hleap.
  unfold ymd2ord.
  replace (days_before_year y) with
    (a * 146097 + b * 36524 + c * 1461 + e * 365)
    by (rewrite Hyd; symmetry; apply days_before_year_decomp; assumption).
  rewrite <- Z.add_assoc.
  rewrite Hleap in Hdoy, Hlast.
  rewrite (ord2ymd_core a b c e _ Hb Hc He Hdoy), <- Hyd.
  destruct (Z.eqb_spec (days_before_month y m + d) 366) as [E|E].
  - destruct Hlast as [-> ->]; [|reflexivity].
    destruct ((e =? 3) && (negb (c =? 24) || (b =? 3)));
      simpl in Hdoy |- *; lia.
  - replace (days_before_month y m + d - 1)
      with (DAYS_BEFORE_MONTH m + b2z ((2 <? m) && is_leap y) + d - 1)
      by reflexivity.
    rewrite <- Hleap.
    rewrite month_day_of_year_spec; [reflexivity|exact Hm|exact Hd].
Qed.

Section NextDay.

Lemma days_before_month_succ (y m : Z) :
  1 <= m < 12 ->
  days_before_month y (m + 1) = days_before_month y m + days_in_month y m.
Proof.
  intros Hm; unfold days_before_month, days_in_month.
  split_month m; try lia; destruct (is_leap y); reflexivity.
Qed.

Lemma ymd2ord_next_day (y m d : Z) :
  valid_date y m d = true ->
  let '(y', m', d') := next_day y m d in
  ymd2ord y' m' d' = ymd2ord y m d + 1.
Proof.
  intros V; apply valid_date_bounds in V; destruct V as (Hy & Hm & Hd).
  unfold next_day.
  destruct (Z.ltb_spec d (days_in_month y m)) as [H|H];
    [unfold ymd2ord; lia|].
  destruct (Z.ltb_spec m 12) as [H12|H12]; unfold ymd2ord.
  - rewrite days_before_month_succ by lia; lia.
  - assert (m = 12) by lia; subst m.
    rewrite days_before_year_step.
    unfold days_before_month, days_in_month in *.
    destruct (is_leap y); cbn -[Z.add] in *; lia.
Qed.

Lemma next_day_valid (y m d : Z) :
  valid_date y m d = true ->
  (y, m, d) <> (9999, 12, 31) ->
  let '(y', m', d') := next_day y m d in valid_date y' m' d' = true.
Proof.
  intros V Hlast; apply valid_date_bounds in V; destruct V as (Hy & Hm & Hd).
  pose proof (days_in_month_ge_28 y m Hm) as H28.
  unfold next_day.
  destruct (Z.ltb_spec d (days_in_month y m)) as [H|H].
  { unfold valid_date, MINYEAR, MAXYEAR.
    repeat (apply andb_true_intro; split); apply Z.leb_le; lia. }
  destruct (Z.ltb_spec m 12) as [H12|H12].
  { pose proof (days_in_month_ge_28 y (m + 1) ltac:(lia)).
    unfold valid_date, MINYEAR, MAXYEAR.
    repeat (apply andb_true_intro; split); apply Z.leb_le; lia. }
  assert (m = 12) by lia; subst m.
  assert (Hd31 : d = 31).
  { unfold days_in_month in *; destruct (is_leap y); cbn in *; lia. }
  subst d.
  assert (y <> 9999) by congruence.
  pose proof (days_in_month_ge_28 (y + 1) 1 ltac:(lia)).
  unfold valid_date, MINYEAR, MAXYEAR.
  repeat (apply andb_true_intro; split); apply Z.leb_le; lia.
Qed.

Lemma ymd2ord_max (y m d : Z) :
  valid_date y m d = true ->
  ymd2ord y m d <= MAXORDINAL /\
  (ymd2ord y m d = MAXORDINAL -> (y, m, d) = (9999, 12, 31)).
Proof.
  intros V.
  pose proof (lex_compare_ymd2ord y m d 9999 12 31 V eq_refl) as H.
  change (ymd2ord 9999 12 31) with MAXORDINAL in H.
  apply valid_date_bounds in V; destruct V as (Hy & Hm & Hd).
  pose proof (days_in_month_le_31 y m Hm) as H31.
  cbn [lex_compare] in H.
  destruct (Z.compare_spec (ymd2ord y m d) MAXORDINAL) as [E|E|E].
  - split; [lia|intros _].
    destruct (Z.compare_spec y 9999); try discriminate; try lia.
    destruct (Z.compare_spec m 12); try discriminate; try lia.
    destruct (Z.compare_spec d 31); try discriminate; try lia.
    congruence.
  - split; lia.
  - destruct (Z.compare_spec y 9999); try discriminate; try lia.
    destruct (Z.compare_spec m 12); try discriminate; try lia.
    destruct (Z.compare_spec d 31); try discriminate; lia.
Qed.

(** Every day number up to the last one is the number of a valid date,
    which [ord2ymd] finds. *)
Lemma ord2ymd_add (k : nat) :
  forall y m d : Z,
    valid_date y m d = true ->
    ymd2ord y m d + Z.of_nat k <= MAXORDINAL ->
    exists y' m' d' : Z,
      valid_date y' m' d' = true /\
      ymd2ord y' m' d' = ymd2ord y m d + Z.of_nat k /\
      ord2ymd (ymd2ord y m d + Z.of_nat k) = (y', m', d').
Proof.
  induction k as [|k IH]; intros y m d V Hmax.
  - exists y, m, d; rewrite Z.add_0_r.
    repeat split; [exact V|apply ord2ymd_ymd2ord, V].
  - destruct (ymd2ord_max y m d V) as [_ Hlast].
    assert (Hnot : (y, m, d) <> (9999, 12, 31)).
    { intros E; injection E as -> -> ->.
      change (ymd2ord 9999 12 31) with MAXORDINAL in Hmax; lia. }
    pose proof (next_day_valid y m d V Hnot) as Vn.
    pose proof (ymd2ord_next_day y m d V) as En.
    destruct (next_day y m d) as [[y1 m1] d1].
    destruct (IH y1 m1 d1 Vn) as (y' & m' & d' & V' & E' & O'); [lia|].
    exists y', m', d'; repeat split; [exact V'|lia|].
    rewrite <- O'; f_equal; lia.
Qed.

Lemma datetime_add_days_spec (t : datetime) (n : Z) :
  valid_datetime t = true ->
  0 <= n ->
  datetime_add_days t n
  = if toordinal t + n <=? MAXORDINAL
    then
      let '(y, m, d) := ord2ymd (toordinal t + n) in
      Ok (mkDatetime y m d (hour t) (minute t) (second t) (microsecond t))
    else Raise OverflowError.
Proof.
  intros V Hn.
  pose proof V as V'; unfold valid_datetime in V'.
  apply andb_prop in V'; destruct V' as [Vd Vt].
  apply valid_time_bounds in Vt.
  assert (Hpos : 1 <= toordinal t).
  { pose proof (lex_compare_ymd2ord 1 1 1 (year t) (month t) (day t)
                  eq_refl Vd) as H.
    apply valid_date_bounds in Vd.
    change (ymd2ord 1 1 1) with 1 in H; unfold toordinal.
    cbn [lex_compare] in H.
    destruct (Z.compare_spec 1 (ymd2ord (year t) (month t) (day t)));
      try lia.
    destruct (Z.compare_spec 1 (year t)); try discriminate; try lia.
    destruct (Z.compare_spec 1 (month t)); try discriminate; try lia.
    destruct (Z.compare_spec 1 (day t)); try discriminate; lia. }
  unfold datetime_add_days, timedelta_new; cbn [days seconds microseconds].
  assert (Hs : 0 <= seconds_of_day t < 86400)
    by (unfold seconds_of_day; lia).
  assert (E1 : microsecond t / 1000000 = 0)
    by (apply Z.div_small; lia).
  assert (E2 : microsecond t mod 1000000 = microsecond t)
    by (apply Z.mod_small; lia).
  rewrite E1, E2, Z.add_0_r.
  rewrite (Z.div_small (seconds_of_day t) 86400 Hs), Z.add_0_r.
  rewrite (Z.mod_small (seconds_of_day t) 86400 Hs).
  assert (E3 : (0 <? toordinal t + n) = true) by (apply Z.ltb_lt; lia).
  rewrite E3; cbn [andb].
  destruct (toordinal t + n <=? MAXORDINAL); [|reflexivity].
  destruct (ord2ymd (toordinal t + n)) as [[y m] d].
  assert (E4 : seconds_of_day t / 3600 = hour t)
    by (unfold seconds_of_day; Z.div_mod_to_equations; lia).
  assert (E5 : seconds_of_day t mod 3600 / 60 = minute t)
    by (unfold seconds_of_day; Z.div_mod_to_equations; lia).
  assert (E6 : (seconds_of_day t mod 3600) mod 60 = second t)
    by (unfold seconds_of_day; Z.div_mod_to_equations; lia).
  rewrite E4, E5, E6; reflexivity.
Qed.

End NextDay.

(** X11.  For a daily or weekly budget with a valid start,
    [get_next_reset_date] shows the date one day, respectively seven
    days, after the start day: a valid date whose day number is that of
    the start plus 1 or 7 (for a daily budget, the next calendar day).
    It fails, with OverflowError, only when that day lies after
    9999-12-31. *)
Theorem daily_weekly_next_reset :
  forall (s : SessionState) (start : datetime) (n : nat),
    budget_start_date s = Some start ->
    valid_datetime start = true ->
    (budget_type s = Some Daily /\ n = 1%nat) \/
    (budget_type s = Some Weekly /\ n = 7%nat) ->
    (toordinal start + Z.of_nat n <= MAXORDINAL ->
     exists next : datetime,
       valid_datetime next = true /\
       toordinal next = toordinal start + Z.of_nat n /\
       (n = 1%nat ->
        (year next, month next, day next)
        = next_day (year start) (month start) (day start)) /\
       get_next_reset_date s = Ok (strftime_Ymd next)) /\
    (MAXORDINAL < toordinal start + Z.of_nat n ->
     get_next_reset_date s = Raise OverflowError).
Proof.
  intros s start n Hs V Hcase.
  assert (Hget : get_next_reset_date s
                 = next_reset <- datetime_add_days start (Z.of_nat n) ;;
                   Ok (strftime_Ymd next_reset)).
  { unfold get_next_reset_date; rewrite Hs.
    destruct Hcase as [[-> ->]|[-> ->]]; reflexivity. }
  rewrite Hget, (datetime_add_days_spec start _ V) by lia.
  pose proof V as V'; unfold valid_datetime in V'.
  apply andb_prop in V'; destruct V' as [Vd Vt].
  split; intros Hmax.
  - destruct (ord2ymd_add n _ _ _ Vd Hmax)
      as (y' & m' & d' & V' & E' & O').
    fold (toordinal start) in O', E'.
    exists (mkDatetime y' m' d' (hour start) (minute start) (second start)
                       (microsecond start)).
    repeat split.
    + unfold valid_datetime; cbn; rewrite V', Vt; reflexivity.
    + exact E'.
    + intros ->; cbn.
      pose proof (ymd2ord_next_day _ _ _ Vd) as En.
      destruct (ymd2ord_max _ _ _ Vd) as [_ Hlast].
      assert (Hnot : (year start, month start, day start) <> (9999, 12, 31)).
      { intros E; apply (f_equal (fun '(y, m, d) => ymd2ord y m d)) in E.
        change (ymd2ord 9999 12 31) with MAXORDINAL in E.
        fold (toordinal start) in E; cbn in Hmax; lia. }
      pose proof (next_day_valid _ _ _ Vd Hnot) as Vn.
      destruct (next_day (year start) (month start) (day start))
        as [[y1 m1] d1].
      pose proof (ord2ymd_ymd2ord y1 m1 d1 Vn) as O1.
      rewrite En in O1; fold (toordinal start) in O1.
      change (Z.of_nat 1) with 1 in O'; congruence.
    + apply Z.leb_le in Hmax; rewrite Hmax, O'; reflexivity.
  - apply Z.leb_gt in Hmax; rewrite Hmax; reflexivity.
Qed.

Lemma daily_weekly_next_reset_witness :
  let start := mkDatetime 2024 2 28 23 30 0 0 in
  let s := mkSession budget_page "USD" "light" true true (Some Daily)
                     (Some (mkDecimal false 5000 (-2))) (Some start)
                     [] [] in
  get_next_reset_date s = Ok "2024-02-29" /\
  exists next : datetime,
    toordinal next = toordinal start + 1 /\
    get_next_reset_date s = Ok (strftime_Ymd next).
Proof.
  intros start s; split; [reflexivity|].
  destruct (daily_weekly_next_reset s start 1 eq_refl eq_refl
              (or_introl (conj eq_refl eq_refl))) as [H _].
  destruct H as (next & _ & Hord & _ & Hget); [vm_compute; discriminate|].
  exists next; split; assumption.
Defined.

Section ReplaceDate.

Lemma is_leap_succ (y : Z) : is_leap y = true -> is_leap (y + 1) = false.
Proof.
  unfold is_leap; intros H; apply andb_prop in H; destruct H as [H4 _].
  apply Z.eqb_eq in H4.
  destruct (Z.eqb_spec ((y + 1) mod 4) 0) as [E|E]; [|reflexivity].
  exfalso; Z.div_mod_to_equations; lia.
Qed.

Lemma valid_date_true_iff (y m d : Z) :
  valid_date y m d = true <->
  1 <= y <= 9999 /\ 1 <= m <= 12 /\ 1 <= d <= days_in_month y m.
Proof.
  split; [apply valid_date_bounds|].
  intros (Hy & Hm & Hd); unfold valid_date, MINYEAR, MAXYEAR.
  repeat (apply andb_true_intro; split); apply Z.leb_le; lia.
Qed.

Lemma valid_date_false (y m d : Z) :
  ~ (1 <= y <= 9999 /\ 1 <= m <= 12 /\ 1 <= d <= days_in_month y m) ->
  valid_date y m d = false.
Proof.
  intros H; destruct (valid_date y m d) eqn:E; [|reflexivity].
  apply valid_date_true_iff in E; contradiction.
Qed.

End ReplaceDate.

(** X12.  For a yearly budget with a valid start,
    [get_next_reset_date] shows the same month and day of the following
    year, and raises ValueError in exactly two cases: a start on the
    29th of February, and a start in the year 9999. *)
Theorem yearly_next_reset :
  forall (s : SessionState) (start : datetime),
    budget_type s = Some Yearly ->
    budget_start_date s = Some start ->
    valid_datetime start = true ->
    get_next_reset_date s
    = if ((month start =? 2) && (day start =? 29)) || (year start =? 9999)
      then Raise ValueError
      else Ok (strftime_Ymd
                 (mkDatetime (year start + 1) (month start) (day start)
                             (hour start) (minute start) (second start)
                             (microsecond start))).
Proof.
  intros s start Ht Hs V.
  unfold get_next_reset_date; rewrite Hs, Ht.
  unfold replace_year, datetime_new.
  unfold valid_datetime in V; apply andb_prop in V; destruct V as [Vd Vt].
  rewrite Vt, andb_true_r.
  apply valid_date_bounds in Vd; destruct Vd as (Hy & Hm & Hd).
  destruct (Z.eqb_spec (year start) 9999) as [E9|E9].
  { rewrite orb_true_r, valid_date_false; [reflexivity|lia]. }
  rewrite orb_false_r.
  destruct (Z.eqb_spec (month start) 2) as [E2|E2]; cbn [andb].
  - destruct (Z.eqb_spec (day start) 29) as [E29|E29].
    + assert (Hleap : is_leap (year start) = true).
      { unfold days_in_month in Hd; rewrite E2 in Hd.
        destruct (is_leap (year start)); [reflexivity|cbn in Hd; lia]. }
      rewrite valid_date_false; [reflexivity|].
      unfold days_in_month; rewrite E2, (is_leap_succ _ Hleap); cbn; lia.
    + assert (Hv : valid_date (year start + 1) (month start) (day start)
                   = true).
      { apply valid_date_true_iff.
        unfold days_in_month in *; rewrite E2 in *.
        destruct (is_leap (year start)), (is_leap (year start + 1));
          cbn in *; lia. }
      rewrite Hv; reflexivity.
  - assert (Hv : valid_date (year start + 1) (month start) (day start)
                 = true).
    { apply valid_date_true_iff.
      unfold days_in_month in *.
      destruct (Z.eqb_spec (month start) 2); [contradiction|].
      cbn [andb] in *; lia. }
    rewrite Hv; reflexivity.
Qed.

Lemma yearly_next_reset_witness :
  let start := mkDatetime 2024 2 29 8 0 0 0 in
  let s := mkSession budget_page "USD" "light" true true (Some Yearly)
                     (Some (mkDecimal false 1200000 (-2))) (Some start)
                     [] [] in
  valid_datetime start = true /\
  get_next_reset_date s = Raise ValueError /\
  budget_tracker start start NoClick (mkWorld s NoFile)
  = Uncaught (mkWorld s NoFile) ValueError.
Proof.
  intros start s; split; [reflexivity|split; [|reflexivity]].
  rewrite (yearly_next_reset s start eq_refl eq_refl eq_refl); reflexivity.
Defined.

(** X13.  For a monthly budget with a valid start,
    [get_next_reset_date] shows the same day of the following month
    (January of the next year after December), and raises ValueError in
    exactly two cases: the following month has no such day, and a start
    in December 9999. *)
Theorem monthly_next_reset :
  forall (s : SessionState) (start : datetime),
    budget_type s = Some Monthly ->
    budget_start_date s = Some start ->
    valid_datetime start = true ->
    let next_year :=
      if month start =? 12 then year start + 1 else year start in
    let next_month := if month start =? 12 then 1 else month start + 1 in
    get_next_reset_date s
    = if (days_in_month next_year next_month <? day start)
         || ((year start =? 9999) && (month start =? 12))
      then Raise ValueError
      else Ok (strftime_Ymd
                 (mkDatetime next_year next_month (day start)
                             (hour start) (minute start) (second start)
                             (microsecond start))).
Proof.
  intros s start Ht Hs V next_year next_month.
  unfold get_next_reset_date; rewrite Hs, Ht.
  unfold valid_datetime in V; apply andb_prop in V; destruct V as [Vd Vt].
  apply valid_date_bounds in Vd; destruct Vd as (Hy & Hm & Hd).
  assert (Hny : year start + b2z (12 <? month start + 1) = next_year).
  { subst next_year.
    destruct (Z.eqb_spec (month start) 12),
      (Z.ltb_spec 12 (month start + 1)); simpl; lia. }
  assert (Hnm : (month start + 1 - 1) mod 12 + 1 = next_month).
  { subst next_month.
    destruct (Z.eqb_spec (month start) 12) as [E|E];
      [rewrite E; reflexivity|].
    replace (month start + 1 - 1) with (month start) by lia.
    rewrite Z.mod_small; lia. }
  rewrite Hny, Hnm.
  unfold replace_year_month, datetime_new; rewrite Vt, andb_true_r.
  assert (Hnm12 : 1 <= next_month <= 12).
  { subst next_month; destruct (Z.eqb_spec (month start) 12); lia. }
  destruct (Z.ltb_spec (days_in_month next_year next_month) (day start))
    as [Hlt|Hge]; cbn [orb].
  { rewrite valid_date_false; [reflexivity|lia]. }
  destruct (Z.eqb_spec (year start) 9999) as [E9|E9]; cbn [andb].
  - destruct (Z.eqb_spec (month start) 12) as [E12|E12].
    + rewrite valid_date_false; [reflexivity|].
      subst next_year; cbv iota; lia.
    + assert (Hv : valid_date next_year next_month (day start) = true).
      { apply valid_date_true_iff; repeat split; try lia;
          subst next_year; destruct (Z.eqb_spec (month start) 12); lia. }
      rewrite Hv; reflexivity.
  - assert (Hv : valid_date next_year next_month (day start) = true).
    { apply valid_date_true_iff; repeat split; try lia;
        subst next_year; destruct (Z.eqb_spec (month start) 12); lia. }
    rewrite Hv; reflexivity.
Qed.

Lemma monthly_next_reset_witness :
  let start := mkDatetime 2023 12 31 8 0 0 0 in
  let s := mkSession budget_page "USD" "light" true true (Some Monthly)
                     (Some (mkDecimal false 100000 (-2))) (Some start)
                     [] [] in
  valid_datetime start = true /\
  get_next_reset_date s = Ok "2024-01-31".
Proof.
  intros start s; split; [reflexivity|].
  rewrite (monthly_next_reset s start eq_refl eq_refl eq_refl); reflexivity.
Defined.

Lemma deserialize_serialized_expense_witness :
  let e := mkExpense (mkDatetime 2024 1 15 10 0 0 250000)
                     (mkDecimal false 4550 (-2)) "lunch" "Food" "USD"
                     (Some Monthly) "2024-01-15 to 2024-02-15" in
  valid_datetime (e_date e) = true /\
  serialize_expense (expense_dict e) = Ok (serialized_expense e) /\
  dict_get "date" match serialized_expense e with
                  | PyDict items => items
                  | _ => []
                  end = Ok (PyStr "2024-01-15T10:00:00.250000") /\
  deserialize_expense (serialized_expense e) = Ok (expense_dict e).
Proof.
  intros e; split; [reflexivity|split; [reflexivity|split; [reflexivity|]]].
  apply (deserialize_serialized_expense e); reflexivity.
Defined.

(** * Recording an expense *)

Section Recording.

Lemma save_settings_nonempty (w : World) :
  expense_history (session w) <> [] ->
  save_settings w
  = Done (mkWorld (session w) Garbled) [st_error "Failed to save settings"].
Proof.
  intros H; unfold save_settings, settings_dict.
  rewrite map_result_serialize.
  destruct (expense_history (session w)) as [|x rest];
    [contradiction|reflexivity].
Qed.

Lemma py_sum_app (l : list Decimal) (a : Decimal) :
  py_sum (l ++ [a]) = Decimal_add (py_sum l) a.
Proof. unfold py_sum; rewrite fold_left_app; reflexivity. Qed.

End Recording.

(** X14.  Under an active budget whose next reset date can be computed,
    [add_expense] appends one and the same record to the current list
    and to the history: the given amount, description and category, the
    clock reading, the session's currency and budget type, and the
    period label "start to next reset".  The current total grows by the
    amount, in Decimal arithmetic.  The save that follows always fails:
    the notice "Failed to save settings" is shown and the settings file
    is left unreadable. *)
Theorem add_expense_records :
  forall (now : datetime) (amount : Decimal) (description category : string)
         (w : World) (t : BudgetType) (start : datetime) (next : string),
    budget_type (session w) = Some t ->
    budget_start_date (session w) = Some start ->
    get_next_reset_date (session w) = Ok next ->
    let e := mkExpense now amount description category
                       (currency (session w)) (Some t)
                       (strftime_Ymd start ++ " to " ++ next) in
    let s' := with_ledger (session w)
                          (expenses (session w) ++ [e])%list
                          (expense_history (session w) ++ [e])%list in
    add_expense now amount description category w
    = Done (mkWorld s' Garbled) [st_error "Failed to save settings"] /\
    total_expenses s' = Decimal_add (total_expenses (session w)) amount.
Proof.
  intros now amount description category w t start next Ht Hs Hn e s'.
  split.
  - unfold add_expense; rewrite Hs, Hn, Ht.
    fold e; fold s'.
    rewrite save_settings_nonempty; [reflexivity|].
    simpl; intros H; destruct (app_cons_not_nil _ _ _ (eq_sym H)).
  - unfold total_expenses; subst s'; unfold with_ledger; cbn [expenses].
    rewrite map_app; cbn [map]; rewrite py_sum_app; reflexivity.
Qed.

Lemma add_expense_records_witness :
  let start := mkDatetime 2024 1 15 9 0 0 0 in
  let now := mkDatetime 2024 1 16 12 30 0 0 in
  let w := mkWorld (mkSession budget_page "EUR" "light" true true
                              (Some Weekly)
                              (Some (mkDecimal false 20000 (-2)))
                              (Some start) [] []) NoFile in
  let w' := world_of (add_expense now (mkDecimal false 4550 (-2)) "lunch"
                                  "Food" w) in
  map e_budget_period (expenses (session w')) = ["2024-01-15 to 2024-01-22"]
  /\ expense_history (session w') = expenses (session w')
  /\ settings_file w' = Garbled
  /\ total_expenses (session w') = mkDecimal false 4550 (-2).
Proof.
  intros start now w w'.
  destruct (add_expense_records now (mkDecimal false 4550 (-2)) "lunch"
              "Food" w Weekly start "2024-01-22" eq_refl eq_refl eq_refl)
    as [Hadd Htotal].
  subst w'; rewrite Hadd; repeat split.
Defined.

(** * The history filters *)

Section HistoryFilter.

Lemma floor_le_iff (a d n : Z) :
  0 < d -> (a / d <= n <-> a < (n + 1) * d).
Proof.
  intros Hd; split; intros H.
  - Z.div_mod_to_equations; nia.
  - Z.div_mod_to_equations; nia.
Qed.

End HistoryFilter.

(** X15.  An expense is on the history page exactly when it is in the
    history, its category is the selected one (or "All" is selected),
    and, for a window of n days, less than n + 1 full days have elapsed
    from its timestamp to now: "Last 7 days" keeps what is less than
    eight times 24 hours old, and every window keeps an expense dated
    after now. *)
Theorem history_filter_membership :
  forall (now : datetime) (selected_category date_range : string)
         (history : list Expense) (e : Expense),
    In e (filtered_expenses now selected_category date_range history) <->
    In e history /\
    (selected_category = "All" \/ e_category e = selected_category) /\
    match window_days date_range with
    | Some n =>
        instant_us now - instant_us (e_date e) < (n + 1) * (86400 * 1000000)
    | None => True
    end.
Proof.
  intros now cat range history e; unfold filtered_expenses.
  assert (Hcat :
    In e (if String.eqb cat "All" then history
          else filter (fun e => String.eqb (e_category e) cat) history) <->
    In e history /\ (cat = "All" \/ e_category e = cat)).
  { destruct (String.eqb_spec cat "All") as [->|Hne].
    - split; [intros H; split; [assumption|left; reflexivity]|tauto].
    - rewrite filter_In.
      destruct (String.eqb_spec (e_category e) cat); split;
        intros [Hin H]; split; try assumption;
        try (right; assumption); try reflexivity; try discriminate.
      destruct H; contradiction. }
  destruct (window_days range) as [n|].
  - rewrite filter_In, Hcat, days_datetime_sub, Z.leb_le, floor_le_iff by lia.
    tauto.
  - rewrite Hcat; tauto.
Qed.

(** * Rounding to the precision of the context *)

Section Digits.

Import DecimalPos.Unsigned.






End Digits.

Section Rounding.


End Rounding.

(** * The status box and the notification *)

Section BudgetStatus.




End BudgetStatus.



(** * The calculator *)

Section Calculator.


Lemma parsed_not_lt_0 (raw : string) (d : Decimal) :
  validate_decimal_input raw = Some d -> Decimal_lt_int d 0 = false.
Proof.
  intros H; apply unsigned_not_lt_0.
  eapply Decimal_of_str_cleaned_sign, validate_decimal_input_cleaned.
  exact H.
Qed.

End Calculator.

(** X17.  The calculator never shows "Please enter positive values
    only.": the amount parser drops the minus sign, so neither price
    nor quantity is ever below zero when the sign test is made. *)
Theorem calculator_sign_error_unreachable :
  forall (click_time : datetime) (expense_type item_price quantity : string)
         (describe : Decimal -> Decimal -> string) (add_to_budget : bool)
         (w : World),
    ~ In (st_error "Please enter positive values only.")
         (notices (expense_calculator click_time expense_type item_price
                                      quantity describe add_to_budget w)).
Proof.
  intros click_time expense_type item_price quantity describe add_to_budget w.
  unfold expense_calculator.
  destruct (validate_decimal_input item_price) as [price|] eqn:Hp;
    [|intros []].
  destruct (validate_decimal_input quantity) as [qty|] eqn:Hq; [|intros []].
  rewrite (parsed_not_lt_0 _ _ Hp), (parsed_not_lt_0 _ _ Hq); cbn [orb].
  destruct add_to_budget.
  - unfold and_then, add_expense.
    destruct (budget_start_date (session w)); [|intros []].
    destruct (get_next_reset_date (session w)); [|intros []].
    destruct (budget_type (session w)).
    + unfold save_settings.
      destruct (settings_dict _); [|intros []].
      destruct (json_encode _); cbn [notices app In];
        intros H; repeat (destruct H as [H|H]; [discriminate H|]);
        exact H.
    + cbn [notices app In].
      intros H; repeat (destruct H as [H|H]; [discriminate H|]); exact H.
  - cbn [notices In].
    intros H; repeat (destruct H as [H|H]; [discriminate H|]); exact H.
Qed.



(** * The current list and the budget *)

(** X19.  Every run of the script keeps the current-period list empty
    while no budget is set: an expense is only ever added under a
    budget, and resetting the budget empties the list, so that a new
    budget starts with no expenses. *)
Theorem current_needs_budget_kept :
  forall (now click_time : datetime) (i : Interaction) (w : World),
    current_needs_budget (session w) ->
    current_needs_budget (session (world_of (run_script now click_time i w))).
Proof.
  intros now click_time i w.
  apply (run_script_keeps current_needs_budget); clear;
    unfold current_needs_budget.
  - intros s s' Ht _ _ He _; rewrite Ht, He; exact (fun H => H).
  - intros now start s _ _ _; reflexivity.
  - intros s t a d _ _ _ H; discriminate H.
  - intros s _ _; reflexivity.
  - intros s e _ Hset _ H; contradiction.
Qed.

Lemma current_needs_budget_kept_witness :
  let t := mkDatetime 2024 1 16 12 30 0 0 in
  let e := mkExpense t (mkDecimal false 4550 (-2)) "lunch" "Food" "USD"
                     (Some Weekly) "2024-01-15 to 2024-01-22" in
  let w := mkWorld (mkSession budget_page "USD" "light" true true
                              (Some Weekly)
                              (Some (mkDecimal false 20000 (-2)))
                              (Some (mkDatetime 2024 1 15 9 0 0 0))
                              [e] [e]) Garbled in
  let w' := world_of (run_script t t (OnBudget ClickResetBudget) w) in
  current_needs_budget (session w) /\
  budget_type (session w') = None /\
  current_needs_budget (session w') /\
  expenses (session w') = [].
Proof.
  intros t e w w'.
  assert (H : current_needs_budget (session w)) by (intros H; discriminate H).
  pose proof (current_needs_budget_kept t t (OnBudget ClickResetBudget) w H)
    as H'.
  split; [exact H|split; [reflexivity|split; [exact H'|]]].
  apply H'; reflexivity.
Defined.
